(** * AI micro-expression analyzer: feature extraction and stress scoring

    A shallow embedding of [feature_engineering.py] and [stress_model.py].

    The Python code computes on floats.  The program is written once, over
    an interface [Arith] of the float operations it uses, and read in two
    ways:
    - [binary64]: IEEE-754 double precision, the arithmetic CPython and
      NumPy run ([PrimFloat]); it evaluates, and it has NaN and infinities.
    - [real]: the real numbers, without rounding and without special
      values; the algebraic laws of the program are stated there.

    Python exceptions are values of [result]; mutable objects are records
    that a method takes and returns. *)

From Stdlib Require Import ZArith QArith Qreals Reals Lra Lia List Sorted Permutation String Bool Floats.
Import ListNotations.

Set Warnings "-inexact-float".

(** ** Float arithmetic *)

Class Arith (F : Type) : Type := {
  lit : Q -> F;            (* a decimal literal of the source *)
  of_int : Z -> F;         (* int -> float, as in [count / minutes] *)
  fadd : F -> F -> F;
  fsub : F -> F -> F;
  fmul : F -> F -> F;
  fdiv : F -> F -> F;      (* IEEE division: never raises *)
  fabs : F -> F;
  fsqrt : F -> F;
  fltb : F -> F -> bool;   (* x < y *)
  feqb : F -> F -> bool;   (* x == y *)
  float32 : F -> F         (* rounding to single precision, dtype=np.float32 *)
}.

Arguments lit {F _} _%_Q.

Declare Scope py_scope.
Delimit Scope py_scope with py.
Infix "+" := fadd : py_scope.
Infix "-" := fsub : py_scope.
Infix "*" := fmul : py_scope.
Infix "/" := fdiv : py_scope.
Infix "<?" := fltb : py_scope.
Infix "=?" := feqb : py_scope.
(* Python's [a > b] on floats is [b < a]. *)
Notation "a >? b" := (fltb b a) (at level 70, no associativity) : py_scope.

(** *** binary64 *)

Definition Z2float (z : Z) : float :=
  SF2Prim (binary_normalize prec emax z 0 false).

Definition round32 (x : spec_float) : spec_float :=
  match x with
  | S754_finite s m e => binary_normalize 24 128 (cond_Zopp s (Zpos m)) e s
  | _ => x
  end.

#[export] Instance binary64 : Arith float := {|
  lit q := PrimFloat.div (Z2float (Qnum q)) (Z2float (Zpos (Qden q)));
  of_int := Z2float;
  fadd := PrimFloat.add;
  fsub := PrimFloat.sub;
  fmul := PrimFloat.mul;
  fdiv := PrimFloat.div;
  fabs := PrimFloat.abs;
  fsqrt := PrimFloat.sqrt;
  fltb := PrimFloat.ltb;
  feqb := PrimFloat.eqb;
  float32 x := SF2Prim (round32 (Prim2SF x))
|}.

(** *** real numbers *)

Definition Rltb (x y : R) : bool := if Rlt_dec x y then true else false.
Definition Reqb (x y : R) : bool := if Req_dec_T x y then true else false.

#[export] Instance real : Arith R := {|
  lit := Q2R;
  of_int := IZR;
  fadd := Rplus;
  fsub := Rminus;
  fmul := Rmult;
  fdiv := Rdiv;
  fabs := Rabs;
  fsqrt := R_sqrt.sqrt;
  fltb := Rltb;
  feqb := Reqb;
  float32 x := x
|}.

(** ** Exceptions *)

Inductive exn : Set := ZeroDivisionError | KeyError | ValueError.

Inductive result (A : Type) : Type :=
  | Ok (a : A)
  | Raise (e : exn).

Arguments Ok {A} a.
Arguments Raise {A} e.

Definition bind {A B : Type} (c : result A) (k : A -> result B) : result B :=
  match c with
  | Ok a => k a
  | Raise e => Raise e
  end.

Notation "x <- c ;; k" := (bind c (fun x => k))
  (at level 61, c at next level, right associativity).
Notation "' p <- c ;; k" := (bind c (fun p => k))
  (at level 61, p pattern, c at next level, right associativity).

(** ** Python and NumPy built-ins *)

Section Builtins.
Context {F : Type} `{Arith F}.
Local Open Scope py_scope.

(** [x / y] on Python floats raises on a zero divisor. *)
Definition truediv (x y : F) : result F :=
  if y =? lit 0 then Raise ZeroDivisionError else Ok (x / y).

(** [max(a, b)] keeps [a] unless [b > a]; [min(a, b)] keeps [a] unless
    [b < a]. *)
Definition py_max (a b : F) : F := if b >? a then b else a.
Definition py_min (a b : F) : F := if b <? a then b else a.

(** [np.clip(x, a_min, a_max)] on a scalar: below [a_min] gives [a_min],
    above [a_max] gives [a_max], and NaN, which compares false, is
    passed through. *)
Definition np_clip (x a_min a_max : F) : F :=
  let x := if x <? a_min then a_min else x in
  if x >? a_max then a_max else x.

(** [np.mean] of a sequence: the sum, accumulated from left to right, over
    the length.  An empty sequence gives [0 / 0]. *)
Definition np_sum (xs : list F) : F := fold_left fadd xs (lit 0).
Definition np_mean (xs : list F) : F :=
  np_sum xs / of_int (Z.of_nat (List.length xs)).

(** A [dict] with string keys, in insertion order. *)
Definition dict (V : Type) : Type := list (string * V).

Fixpoint dict_get {V : Type} (d : dict V) (key : string) (default : V) : V :=
  match d with
  | [] => default
  | (k, v) :: d' => if String.eqb k key then v else dict_get d' key default
  end.

Fixpoint dict_getitem {V : Type} (d : dict V) (key : string) : result V :=
  match d with
  | [] => Raise KeyError
  | (k, v) :: d' => if String.eqb k key then Ok v else dict_getitem d' key
  end.

(** [collections.deque(maxlen=n)]: appending to a full deque discards
    the leftmost item; with [maxlen = 0] nothing is ever stored. *)
Record deque : Type := { maxlen : nat; items : list F }.

Definition deque_append (d : deque) (x : F) : deque :=
  {| maxlen := maxlen d;
     items := if Nat.eqb (maxlen d) 0 then items d
              else if Nat.ltb (List.length (items d)) (maxlen d) then items d ++ [x]
              else tl (items d) ++ [x] |}.
End Builtins.

Arguments deque F : clear implicits.

(** ** stress_model.py *)

Definition OUTPUT_LABELS : dict (string * string) :=
  [ ("calm", ("🟢", "Calm"));
    ("mild", ("🟡", "Slight Stress"));
    ("high", ("🔴", "High Stress / Possible Deception Indicators")) ]%string.

Section StressModel.
Context {F : Type} `{Arith F}.
Local Open Scope string_scope.
Local Open Scope py_scope.

Record StressScore : Type := {
  score : F;
  label : string;
  icon : string;
  level : string   (* "calm" | "mild" | "high" *)
}.

Record StressEstimator : Type := {
  weights : dict F;
  scalers : dict F;
  thresholds : dict F
}.

(** [StressEstimator.__init__]: it takes no argument and checks nothing. *)
Definition StressEstimator_init : StressEstimator := {|
  weights :=
    [ ("eyebrow_raise", lit 0.3);
      ("lip_tension", lit 0.25);
      ("head_nod_intensity", lit 0.2);
      ("symmetry_delta", lit 0.15);
      ("blink_rate", lit 0.1) ];
  scalers :=
    [ ("eyebrow_raise", lit 0.08);
      ("lip_tension", lit 1.0);
      ("head_nod_intensity", lit 1.5);
      ("symmetry_delta", lit 0.05);
      ("blink_rate", lit 30.0) ];
  thresholds :=
    [ ("calm", lit 0.35);
      ("mild", lit 0.65) ]
|}.

(** The loop of [predict] over [features.items()]. *)
Fixpoint predict_loop (self : StressEstimator) (items : dict F)
    (weighted_sum : F) : result F :=
  match items with
  | [] => Ok weighted_sum
  | (key, value) :: rest =>
      let weight := dict_get (weights self) key (lit 0.0) in
      let scale := dict_get (scalers self) key (lit 1.0) in
      q <- truediv value scale ;;
      predict_loop self rest (weighted_sum + weight * py_min q (lit 1.5))
  end.

Definition predict (self : StressEstimator) (features : dict F)
    : result StressScore :=
  weighted_sum <- predict_loop self features (lit 0.0) ;;
  let score := np_clip weighted_sum (lit 0.0) (lit 1.5) in
  calm <- dict_getitem (thresholds self) "calm" ;;
  label_key <-
    (if score <? calm then Ok "calm"
     else
       mild <- dict_getitem (thresholds self) "mild" ;;
       if score <? mild then Ok "mild" else Ok "high") ;;
  ' (icon, label) <- dict_getitem OUTPUT_LABELS label_key ;;
  Ok {| score := score; icon := icon; label := label; level := label_key |}.
End StressModel.

Arguments StressScore F : clear implicits.
Arguments StressEstimator F : clear implicits.

(** ** feature_engineering.py *)

(** Landmark indices approximated from MediaPipe Face Mesh topology *)
Definition LEFT_EYE_LIDS : nat * nat := (159, 145)%nat.
Definition RIGHT_EYE_LIDS : nat * nat := (386, 374)%nat.
Definition LEFT_EYE_HORIZONTAL : nat * nat := (33, 133)%nat.
Definition RIGHT_EYE_HORIZONTAL : nat * nat := (362, 263)%nat.
Definition LEFT_EYEBROW : list nat := [55; 107; 46]%nat.
Definition RIGHT_EYEBROW : list nat := [285; 336; 276]%nat.
Definition LEFT_LIP_CORNER : nat := 61.
Definition RIGHT_LIP_CORNER : nat := 291.
Definition TOP_LIP : nat := 13.
Definition BOTTOM_LIP : nat := 14.
Definition NOSE_TIP : nat := 1.
Definition CHIN : nat := 152.
Definition LEFT_CHEEK : nat := 234.
Definition RIGHT_CHEEK : nat := 454.

Section FeatureEngineering.
Context {F : Type} `{Arith F}.
Local Open Scope string_scope.
Local Open Scope py_scope.

(** Modelled from the spec: [LandmarkFrame] is declared in
    [face_mesh_module], which is not among the sources.  The spec gives it
    landmarks, an ordered sequence of 3D points indexed by a fixed
    topology, and a timestamp in seconds.  The array is taken with rows
    [(x, y, z)] of float64 and with every index of the topology present. *)
Definition point : Type := F * F * F.
Definition ndarray : Type := nat -> point.

Record LandmarkFrame : Type := {
  landmarks : ndarray;
  timestamp : F
}.

Definition px (p : point) : F := fst (fst p).
Definition py (p : point) : F := snd (fst p).   (* p[1] *)
Definition pz (p : point) : F := snd p.

Definition point_map2 (f : F -> F -> F) (a b : point) : point :=
  (f (px a) (px b), f (py a) (py b), f (pz a) (pz b)).
Definition point_map (f : F -> F) (a : point) : point :=
  (f (px a), f (py a), f (pz a)).

(** [np.linalg.norm] of a vector: the square root of its dot product
    with itself. *)
Definition norm (v : point) : F :=
  fsqrt (px v * px v + py v * py v + pz v * pz v).

Definition _distance (a b : point) : F :=
  norm (point_map2 fsub a b).

(** [points.mean(axis=0)] over float32 rows: the rows are added one after
    the other and the sum is divided by their number, every step rounded
    to single precision. *)
Definition _average_points (indices : list nat) (landmarks : ndarray) : point :=
  let points := map (fun idx => point_map float32 (landmarks idx)) indices in
  let add32 a b := point_map float32 (point_map2 fadd a b) in
  let n := of_int (Z.of_nat (List.length points)) in
  let total :=
    match points with
    | [] => (lit 0, lit 0, lit 0)
    | p :: ps => fold_left add32 ps p
    end in
  point_map (fun c => float32 (c / n)) total.

Record TemporalMetric : Type := {
  window_seconds : F;
  timestamps : list F   (* default_factory=deque *)
}.

(** The [while] loop of [add]: pop from the left while the deque is not
    empty and its head is older than the window. *)
Fixpoint popleft_while (timestamp window_seconds : F) (timestamps : list F)
    : list F :=
  match timestamps with
  | [] => []
  | t0 :: rest =>
      if (timestamp - t0) >? window_seconds
      then popleft_while timestamp window_seconds rest
      else timestamps
  end.

Definition add (self : TemporalMetric) (timestamp : F) : TemporalMetric :=
  {| window_seconds := window_seconds self;
     timestamps :=
       popleft_while timestamp (window_seconds self)
         (timestamps self ++ [timestamp]) |}.

Definition count (self : TemporalMetric) : nat :=
  List.length (timestamps self).

(** [metrics_history]: a dict with the four keys below, each a deque. *)
Record MetricsHistory : Type := {
  eyebrow : deque F;
  lip_tension : deque F;
  nod : deque F;
  symmetry : deque F
}.

Record FeatureExtractor : Type := {
  smoothing_window : Z;
  blink_threshold : F;
  previous_blink_state : bool;
  metrics_history : MetricsHistory;
  blink_events : TemporalMetric;
  previous_nose_height : option F
}.

(** [FeatureExtractor.__init__]; [deque(maxlen=n)] raises [ValueError] on
    a negative [n]. *)
Definition FeatureExtractor_init (smoothing_window : Z)
    (blink_threshold blink_window_seconds : F) : result FeatureExtractor :=
  if (smoothing_window <? 0)%Z then Raise ValueError
  else
    let empty := {| maxlen := Z.to_nat smoothing_window; items := [] |} in
    Ok {| smoothing_window := smoothing_window;
          blink_threshold := blink_threshold;
          previous_blink_state := false;
          metrics_history :=
            {| eyebrow := empty; lip_tension := empty;
               nod := empty; symmetry := empty |};
          blink_events :=
            {| window_seconds := blink_window_seconds; timestamps := [] |};
          previous_nose_height := None |}.

(** The constructor's defaults. *)
Definition FeatureExtractor_default : result FeatureExtractor :=
  FeatureExtractor_init 5 (lit 0.23) (lit 60.0).

(** Attribute assignments on [self]. *)
Definition set_history (self : FeatureExtractor) (h : MetricsHistory)
    : FeatureExtractor :=
  {| smoothing_window := smoothing_window self;
     blink_threshold := blink_threshold self;
     previous_blink_state := previous_blink_state self;
     metrics_history := h;
     blink_events := blink_events self;
     previous_nose_height := previous_nose_height self |}.

Definition set_blink (self : FeatureExtractor) (events : TemporalMetric)
    (state : bool) : FeatureExtractor :=
  {| smoothing_window := smoothing_window self;
     blink_threshold := blink_threshold self;
     previous_blink_state := state;
     metrics_history := metrics_history self;
     blink_events := events;
     previous_nose_height := previous_nose_height self |}.

Definition set_nose_height (self : FeatureExtractor) (nose_y : F)
    : FeatureExtractor :=
  {| smoothing_window := smoothing_window self;
     blink_threshold := blink_threshold self;
     previous_blink_state := previous_blink_state self;
     metrics_history := metrics_history self;
     blink_events := blink_events self;
     previous_nose_height := Some nose_y |}.

(** The methods return the value and the extractor after the call.  A
    raised exception ends the call; the extractor it leaves behind is not
    modelled. *)

Definition _eye_aspect_ratio (self : FeatureExtractor) (landmarks : ndarray)
    (lids horizontal_pair : nat * nat) : result F :=
  let upper := landmarks (fst lids) in
  let lower := landmarks (snd lids) in
  let horizontal :=
    _distance (landmarks (fst horizontal_pair)) (landmarks (snd horizontal_pair)) in
  truediv (_distance upper lower) (py_max horizontal (lit 1e-5)).

(** The first three statements of [_compute_blink_rate]: the average of
    the two eye aspect ratios. *)
Definition eye_ratio (self : FeatureExtractor) (frame : LandmarkFrame)
    : result F :=
  left_ratio <- _eye_aspect_ratio self (landmarks frame)
                  LEFT_EYE_LIDS LEFT_EYE_HORIZONTAL ;;
  right_ratio <- _eye_aspect_ratio self (landmarks frame)
                   RIGHT_EYE_LIDS RIGHT_EYE_HORIZONTAL ;;
  Ok ((left_ratio + right_ratio) * lit 0.5).

(** The rest of [_compute_blink_rate], from the average ratio on. *)
Definition blink_rate_of_ratio (self : FeatureExtractor) (eye_ratio : F)
    (timestamp : F) : result (F * FeatureExtractor) :=
  let is_blinking := eye_ratio <? blink_threshold self in
  let events :=
    if is_blinking && negb (previous_blink_state self)
    then add (blink_events self) timestamp
    else blink_events self in
  let self := set_blink self events is_blinking in
  let minutes := py_max (window_seconds (blink_events self) / lit 60.0) (lit 1e-3) in
  rate <- truediv (of_int (Z.of_nat (count (blink_events self)))) minutes ;;
  Ok (rate, self).

Definition _compute_blink_rate (self : FeatureExtractor) (frame : LandmarkFrame)
    : result (F * FeatureExtractor) :=
  ratio <- eye_ratio self frame ;;
  blink_rate_of_ratio self ratio (timestamp frame).

Definition _compute_eyebrow_raise (self : FeatureExtractor) (landmarks : ndarray)
    : result (F * FeatureExtractor) :=
  let left_brow := _average_points LEFT_EYEBROW landmarks in
  let right_brow := _average_points RIGHT_EYEBROW landmarks in
  let anchor :=
    point_map (fun c => c * lit 0.5)
      (point_map2 fadd (landmarks (fst LEFT_EYE_LIDS))
                       (landmarks (fst RIGHT_EYE_LIDS))) in
  let left_raise := fabs (py left_brow - py anchor) in
  let right_raise := fabs (py right_brow - py anchor) in
  let value := (left_raise + right_raise) * lit 0.5 in
  let h := metrics_history self in
  let window := deque_append (eyebrow h) value in
  let self :=
    set_history self
      {| eyebrow := window; lip_tension := lip_tension h;
         nod := nod h; symmetry := symmetry h |} in
  Ok (np_mean (items window), self).

(** The value [_compute_lip_tension] appends to its window. *)
Definition lip_tension_raw (landmarks : ndarray) : result F :=
  let mouth_width :=
    _distance (landmarks LEFT_LIP_CORNER) (landmarks RIGHT_LIP_CORNER) in
  let mouth_height := _distance (landmarks TOP_LIP) (landmarks BOTTOM_LIP) in
  raw_ratio <- truediv mouth_width (py_max mouth_height (lit 1e-5)) ;;
  Ok (np_clip ((raw_ratio - lit 5.0) / lit 55.0) (lit 0.0) (lit 1.0)).

Definition _compute_lip_tension (self : FeatureExtractor) (landmarks : ndarray)
    : result (F * FeatureExtractor) :=
  tension <- lip_tension_raw landmarks ;;
  let h := metrics_history self in
  let window := deque_append (lip_tension h) tension in
  let self :=
    set_history self
      {| eyebrow := eyebrow h; lip_tension := window;
         nod := nod h; symmetry := symmetry h |} in
  Ok (np_mean (items window), self).

Definition _compute_head_nod (self : FeatureExtractor) (frame : LandmarkFrame)
    : result (F * FeatureExtractor) :=
  let nose_y := py (landmarks frame NOSE_TIP) in
  let chin_y := py (landmarks frame CHIN) in
  let head_length := fabs (chin_y - nose_y) in
  match previous_nose_height self with
  | None => Ok (lit 0.0, set_nose_height self nose_y)
  | Some previous =>
      (* NumPy scalars: this division does not raise *)
      let delta := fabs (nose_y - previous) / py_max head_length (lit 1e-5) in
      let self := set_nose_height self nose_y in
      let h := metrics_history self in
      let window := deque_append (nod h) delta in
      let self :=
        set_history self
          {| eyebrow := eyebrow h; lip_tension := lip_tension h;
             nod := window; symmetry := symmetry h |} in
      Ok (np_mean (items window), self)
  end.

Definition _compute_symmetry (self : FeatureExtractor) (landmarks : ndarray)
    : result (F * FeatureExtractor) :=
  let left_cheek := landmarks LEFT_CHEEK in
  let right_cheek := landmarks RIGHT_CHEEK in
  let nose := landmarks NOSE_TIP in
  let left_dist := _distance left_cheek nose in
  let right_dist := _distance right_cheek nose in
  symmetry_score <-
    truediv (fabs (left_dist - right_dist))
            (py_max ((left_dist + right_dist) * lit 0.5) (lit 1e-5)) ;;
  let h := metrics_history self in
  let window := deque_append (symmetry h) symmetry_score in
  let self :=
    set_history self
      {| eyebrow := eyebrow h; lip_tension := lip_tension h;
         nod := nod h; symmetry := window |} in
  Ok (np_mean (items window), self).

Definition extract (self : FeatureExtractor) (frame : LandmarkFrame)
    : result (dict F * FeatureExtractor) :=
  ' (eyebrow, self) <- _compute_eyebrow_raise self (landmarks frame) ;;
  ' (lip_tension, self) <- _compute_lip_tension self (landmarks frame) ;;
  ' (nod, self) <- _compute_head_nod self frame ;;
  ' (symmetry, self) <- _compute_symmetry self (landmarks frame) ;;
  ' (blink_rate, self) <- _compute_blink_rate self frame ;;
  Ok ([ ("eyebrow_raise", eyebrow);
        ("lip_tension", lip_tension);
        ("head_nod_intensity", nod);
        ("symmetry_delta", symmetry);
        ("blink_rate", blink_rate) ], self).
End FeatureEngineering.

Arguments LandmarkFrame F : clear implicits.
Arguments TemporalMetric F : clear implicits.
Arguments MetricsHistory F : clear implicits.
Arguments FeatureExtractor F : clear implicits.
Arguments point F : clear implicits.
Arguments ndarray F : clear implicits.

(** * Vocabulary of the properties *)

Section Vocabulary.
Context {F : Type} `{Arith F}.
Local Open Scope string_scope.
Local Open Scope py_scope.

(** No scale of the estimator is zero. *)
Definition scalers_nonzero (self : StressEstimator F) : Prop :=
  (lit 1.0 =? lit 0) = false /\
  Forall (fun kv => (snd kv =? lit 0) = false) (scalers self).

(** The level [predict] assigns to a score under the default thresholds. *)
Definition level_of (score : F) : string :=
  if score <? lit 0.35 then "calm"
  else if score <? lit 0.65 then "mild"
  else "high".

(** Feeding [blink_rate_of_ratio] a sequence of (average ratio, timestamp)
    samples, one frame after the other. *)
Fixpoint feed_ratios (self : FeatureExtractor F) (samples : list (F * F))
    : result (FeatureExtractor F) :=
  match samples with
  | [] => Ok self
  | (ratio, t) :: rest =>
      ' (_, self) <- blink_rate_of_ratio self ratio t ;;
      feed_ratios self rest
  end.

(** The timestamps of the samples that enter closure: below the threshold
    while the sample before was not. *)
Fixpoint closing_edges (threshold : F) (previous : bool)
    (samples : list (F * F)) : list F :=
  match samples with
  | [] => []
  | (ratio, t) :: rest =>
      let is_blinking := ratio <? threshold in
      if is_blinking && negb previous
      then t :: closing_edges threshold is_blinking rest
      else closing_edges threshold is_blinking rest
  end.

(** [add] called on each timestamp in turn. *)
Definition add_all (self : TemporalMetric F) (timestamps : list F)
    : TemporalMetric F :=
  fold_left add timestamps self.

(** A landmark set whose two eyes have width 1 and lid gap [gap], every
    other point at the origin. *)
Definition eyes (gap : F) : ndarray F :=
  fun idx =>
    if Nat.eqb idx (fst LEFT_EYE_LIDS) || Nat.eqb idx (fst RIGHT_EYE_LIDS)
    then (lit 0, gap, lit 0)
    else if Nat.eqb idx (snd LEFT_EYE_HORIZONTAL)
            || Nat.eqb idx (snd RIGHT_EYE_HORIZONTAL)
    then (lit 1, lit 0, lit 0)
    else (lit 0, lit 0, lit 0).

(** Landmark sets for the edge cases: every point at the origin, and the
    points of [indices] moved to [(1e200, 0, 0)]. *)
Definition origin : ndarray F := fun _ => (lit 0, lit 0, lit 0).



(** [_compute_blink_rate] over a sequence of frames. *)
Fixpoint feed_frames (self : FeatureExtractor F) (frames : list (LandmarkFrame F))
    : result (FeatureExtractor F) :=
  match frames with
  | [] => Ok self
  | frame :: rest =>
      ' (_, self) <- _compute_blink_rate self frame ;;
      feed_frames self rest
  end.

End Vocabulary.

(** Over the reals: the events at most [window_seconds] older than
    [latest]. *)
Definition in_window (window_seconds latest t : R) : bool :=
  negb (Rltb window_seconds (latest - t)).

Definition empty_metric (window_seconds : R) : TemporalMetric R :=
  {| window_seconds := window_seconds; timestamps := [] |}.

(** Over the reals: what an extractor built with a positive smoothing window
    keeps true of its rolling windows. *)
Definition windows_ok (self : FeatureExtractor R) : Prop :=
  let h := metrics_history self in
  (maxlen (eyebrow h) <> 0%nat /\ Forall (fun x => (0 <= x)%R) (items (eyebrow h))) /\
  (maxlen (lip_tension h) <> 0%nat /\
   Forall (fun x => (0 <= x <= 1)%R) (items (lip_tension h))) /\
  (maxlen (nod h) <> 0%nat /\ Forall (fun x => (0 <= x)%R) (items (nod h))) /\
  (maxlen (symmetry h) <> 0%nat /\ Forall (fun x => (0 <= x)%R) (items (symmetry h))).

Section WindowVocabulary.
Context {F : Type} `{Arith F}.

(** The rolling window of capacity [k] after the values [xs] were appended
    in turn to an empty one. *)
Definition window_after (k : nat) (xs : list F) : deque F :=
  fold_left deque_append xs {| maxlen := k; items := [] |}.

(** The last [k] items of a list. *)
Definition lastn (k : nat) (xs : list F) : list F :=
  skipn (List.length xs - k) xs.

(** [extract] then [predict], as the main loop calls them on a frame. *)
Definition analyze (extractor : FeatureExtractor F)
    (estimator : StressEstimator F) (frame : LandmarkFrame F)
    : result (dict F * StressScore F * FeatureExtractor F) :=
  ' (features, extractor) <- extract extractor frame ;;
  stress_score <- predict estimator features ;;
  Ok (features, stress_score, extractor).
End WindowVocabulary.

(** A window that can hold nothing: [smoothing_window = 0]. *)
Definition no_window {F : Type} (d : deque F) : Prop :=
  maxlen d = 0%nat /\ items d = [].

Definition no_windows {F : Type} (self : FeatureExtractor F) : Prop :=
  let h := metrics_history self in
  no_window (eyebrow h) /\ no_window (lip_tension h) /\
  no_window (nod h) /\ no_window (symmetry h).

(** Over the reals: the sum of a list, and the weight and the capped,
    scaled value that [predict] adds for one item. *)
Definition Rsum (xs : list R) : R := fold_right Rplus 0%R xs.

Definition weight_of (key : string) : R :=
  dict_get (weights StressEstimator_init) key (lit 0.0).

Definition term_of (item : string * R) : R :=
  (weight_of (fst item)
   * py_min (snd item / dict_get (scalers StressEstimator_init) (fst item) (lit 1.0))
       (lit 1.5))%R.

(** * Properties *)

(** ** Facts that hold in every arithmetic *)

Section Generic.
Context {F : Type} `{Arith F}.
Local Open Scope string_scope.
Local Open Scope py_scope.

Lemma dict_get_ind {V : Type} (P : V -> Prop) (d : dict V) (key : string)
    (default : V) :
  P default -> Forall (fun kv => P (snd kv)) d -> P (dict_get d key default).
Proof.
  intros Hdef Hall. induction Hall as [| [k v] d' Hv _ IH]; simpl.
  - exact Hdef.
  - destruct (String.eqb k key); [exact Hv | exact IH].
Qed.

Lemma truediv_ok (x y : F) :
  (y =? lit 0) = false -> truediv x y = Ok (x / y).
Proof. intros Hy. unfold truediv. rewrite Hy. reflexivity. Qed.

Lemma scale_nonzero (self : StressEstimator F) (key : string) :
  scalers_nonzero self ->
  (dict_get (scalers self) key (lit 1.0) =? lit 0) = false.
Proof.
  intros [Hone Hall].
  apply (dict_get_ind (fun v => (v =? lit 0) = false)); assumption.
Qed.

Lemma predict_loop_total (self : StressEstimator F) (items : dict F) :
  scalers_nonzero self ->
  forall acc, exists s, predict_loop self items acc = Ok s.
Proof.
  intros Hs. induction items as [| [key value] rest IH]; intros acc; simpl.
  - eauto.
  - rewrite truediv_ok by (apply scale_nonzero; exact Hs). simpl. apply IH.
Qed.

Lemma predict_of_sum (features : dict F) (s : F) :
  predict_loop StressEstimator_init features (lit 0.0) = Ok s ->
  exists r,
    predict StressEstimator_init features = Ok r /\
    score r = np_clip s (lit 0.0) (lit 1.5) /\
    level r = level_of (score r).
Proof.
  intros Hs. unfold predict. rewrite Hs. cbn [bind].
  cbn [thresholds StressEstimator_init dict_getitem String.eqb Ascii.eqb
       Bool.eqb bind].
  unfold level_of.
  destruct (np_clip s (lit 0.0) (lit 1.5) <? lit 0.35) eqn:Hcalm.
  - eexists. split; [reflexivity |]. cbn [score level]. rewrite Hcalm. auto.
  - cbn [bind].
    destruct (np_clip s (lit 0.0) (lit 1.5) <? lit 0.65) eqn:Hmild.
    + eexists. split; [reflexivity |]. cbn [score level].
      rewrite Hcalm, Hmild. auto.
    + eexists. split; [reflexivity |]. cbn [score level].
      rewrite Hcalm, Hmild. auto.
Qed.
(** [blink_rate_of_ratio] touches the blink state only. *)
Lemma blink_rate_of_ratio_state (self self' : FeatureExtractor F)
    (ratio t rate : F) :
  blink_rate_of_ratio self ratio t = Ok (rate, self') ->
  let is_blinking := ratio <? blink_threshold self in
  blink_threshold self' = blink_threshold self /\
  previous_blink_state self' = is_blinking /\
  blink_events self' =
    (if is_blinking && negb (previous_blink_state self)
     then add (blink_events self) t else blink_events self).
Proof.
  unfold blink_rate_of_ratio.
  match goal with
  | |- bind ?c _ = _ -> _ => destruct c as [r |]; cbn [bind]; [| discriminate]
  end.
  intros Heq. injection Heq as _ <-. cbn. auto.
Qed.

(** The events recorded over a sequence of samples are those of its closing
    edges. *)
Lemma feed_ratios_edges (samples : list (F * F)) :
  forall self self' : FeatureExtractor F,
    feed_ratios self samples = Ok self' ->
    blink_events self' =
      add_all (blink_events self)
        (closing_edges (blink_threshold self) (previous_blink_state self) samples).
Proof.
  induction samples as [| [ratio t] rest IH]; intros self self' Hfeed;
    cbn [feed_ratios closing_edges] in *.
  - injection Hfeed as <-. reflexivity.
  - destruct (blink_rate_of_ratio self ratio t) as [[rate self1] |] eqn:Hstep;
      cbn [bind] in Hfeed; [| discriminate].
    destruct (blink_rate_of_ratio_state _ _ _ _ _ Hstep) as [Hthr [Hprev Hev]].
    rewrite (IH _ _ Hfeed), Hthr, Hprev, Hev.
    destruct ((ratio <? blink_threshold self) && negb (previous_blink_state self));
      reflexivity.
Qed.

(** The first call of [_compute_head_nod]. *)
Lemma head_nod_first (self : FeatureExtractor F) (frame : LandmarkFrame F) :
  previous_nose_height self = None ->
  _compute_head_nod self frame
  = Ok (lit 0.0, set_nose_height self (py (landmarks frame NOSE_TIP))).
Proof. intros Hnone. unfold _compute_head_nod. rewrite Hnone. reflexivity. Qed.

(** Through [extract]: the frame that finds no previous nose height reports
    a head-nod intensity of 0.0 and leaves the nod window as it was. *)
Lemma extract_head_nod_first (self self' : FeatureExtractor F)
    (frame : LandmarkFrame F) (features : dict F) :
  previous_nose_height self = None ->
  extract self frame = Ok (features, self') ->
  dict_getitem features "head_nod_intensity" = Ok (lit 0.0) /\
  nod (metrics_history self') = nod (metrics_history self) /\
  previous_nose_height self' = Some (py (landmarks frame NOSE_TIP)).
Proof.
  intros Hnone. unfold extract, _compute_eyebrow_raise. cbn [bind].
  unfold _compute_lip_tension.
  destruct (lip_tension_raw (landmarks frame)) as [tension |];
    cbn [bind]; [| discriminate].
  rewrite head_nod_first by exact Hnone. cbn [bind].
  unfold _compute_symmetry.
  match goal with
  | |- context [truediv ?a ?b] => destruct (truediv a b) as [sym |]
  end; cbn [bind]; [| discriminate].
  unfold _compute_blink_rate.
  match goal with
  | |- context [eye_ratio ?s ?f] => destruct (eye_ratio s f) as [ratio |]
  end; cbn [bind]; [| discriminate].
  unfold blink_rate_of_ratio.
  match goal with
  | |- context [truediv ?a ?b] => destruct (truediv a b) as [rate |]
  end; cbn [bind]; [| discriminate].
  intros Heq. injection Heq as <- <-. cbn. auto.
Qed.

Lemma add_all_window_seconds (ts : list F) :
  forall m : TemporalMetric F,
    window_seconds (add_all m ts) = window_seconds m.
Proof.
  unfold add_all. induction ts as [| t ts IH]; intros m; cbn [fold_left].
  - reflexivity.
  - rewrite IH. reflexivity.
Qed.

(** A deque never holds more than [maxlen] items, and holds the appended
    one last unless [maxlen = 0]. *)
Lemma deque_append_items (d : deque F) (x : F) (P : F -> Prop) :
  Forall P (items d) -> P x -> Forall P (items (deque_append d x)).
Proof.
  intros Hall Hx. unfold deque_append. cbn [items].
  destruct (Nat.eqb (maxlen d) 0); [exact Hall |].
  destruct (Nat.ltb (List.length (items d)) (maxlen d)).
  - apply Forall_app. split; [exact Hall | repeat constructor; exact Hx].
  - apply Forall_app. split; [| repeat constructor; exact Hx].
    destruct (items d) as [| y ys]; [constructor |].
    cbn [tl]. now apply Forall_inv_tail in Hall.
Qed.

Lemma deque_append_nonempty (d : deque F) (x : F) :
  maxlen d <> 0%nat -> items (deque_append d x) <> [].
Proof.
  intros Hmax. unfold deque_append. cbn [items].
  destruct (Nat.eqb_spec (maxlen d) 0); [contradiction |].
  destruct (Nat.ltb (List.length (items d)) (maxlen d));
    intros Heq; apply app_eq_nil in Heq as [_ Heq]; discriminate.
Qed.
End Generic.

(** ** Facts of binary64 *)

Section Binary64.
Local Open Scope float_scope.

Lemma SFeqb_irrefl_nan (x : spec_float) : SFeqb x x = false -> x = S754_nan.
Proof.
  destruct x as [s | s | | s m e]; unfold SFeqb; simpl; try discriminate; auto.
  - destruct s; discriminate.
  - rewrite Z.compare_refl, Pos.compare_cont_refl. destruct s; discriminate.
Qed.

Lemma is_nan_Prim2SF (x : float) : is_nan x = true -> Prim2SF x = S754_nan.
Proof.
  unfold is_nan. rewrite eqb_spec. intros Hx.
  apply SFeqb_irrefl_nan. now apply negb_true_iff.
Qed.

Lemma nan_ltb_l (x y : float) : is_nan x = true -> (x <? y) = false.
Proof. intros Hx. rewrite ltb_spec, (is_nan_Prim2SF x Hx). reflexivity. Qed.

Lemma nan_ltb_r (x y : float) : is_nan y = true -> (x <? y) = false.
Proof.
  intros Hy. rewrite ltb_spec, (is_nan_Prim2SF y Hy).
  unfold SFltb. destruct (Prim2SF x); reflexivity.
Qed.

Lemma ltb_leb (x y : float) : (x <? y) = true -> (x <=? y) = true.
Proof.
  rewrite ltb_spec, leb_spec. unfold SFltb, SFleb.
  destruct (SFcompare (Prim2SF x) (Prim2SF y)) as [[ | | ] | ]; auto.
Qed.

Lemma leb_not_nan (x y : float) :
  (x <=? y) = true -> is_nan x = false /\ is_nan y = false.
Proof.
  intros Hle. split.
  - destruct (is_nan x) eqn:Hx; [| reflexivity].
    rewrite leb_spec, (is_nan_Prim2SF x Hx) in Hle. discriminate.
  - destruct (is_nan y) eqn:Hy; [| reflexivity].
    rewrite leb_spec, (is_nan_Prim2SF y Hy) in Hle.
    unfold SFleb in Hle. destruct (Prim2SF x); discriminate.
Qed.

Lemma SFcompare_antisym (x y : spec_float) :
  SFcompare y x = option_map CompOpp (SFcompare x y).
Proof.
  destruct x as [sx | sx | | sx mx ex], y as [sy | sy | | sy my ey]; simpl;
    try reflexivity;
    try (destruct sx; reflexivity); try (destruct sy; reflexivity);
    try (destruct sx, sy; reflexivity).
  rewrite (Z.compare_antisym ey ex).
  destruct sx, sy; simpl; try reflexivity;
    destruct (ey ?= ex)%Z; simpl; try reflexivity;
    rewrite ?Pos.compare_cont_antisym, ?CompOpp_involutive; reflexivity.
Qed.

Lemma leb_ltb_false (x y : float) : (x <=? y) = true -> (y <? x) = false.
Proof.
  rewrite ltb_spec, leb_spec. unfold SFltb, SFleb.
  rewrite (SFcompare_antisym (Prim2SF x) (Prim2SF y)).
  destruct (SFcompare (Prim2SF x) (Prim2SF y)) as [[ | | ] | ]; simpl;
    auto; discriminate.
Qed.

Lemma not_ltb_leb (x y : float) :
  is_nan x = false -> is_nan y = false -> (x <? y) = false -> (y <=? x) = true.
Proof.
  unfold is_nan. rewrite !eqb_spec, ltb_spec, leb_spec.
  unfold SFltb, SFleb, SFeqb.
  rewrite (SFcompare_antisym (Prim2SF x) (Prim2SF y)).
  destruct (Prim2SF x) as [sx | sx | | sx mx ex] eqn:Ex; try discriminate;
    destruct (Prim2SF y) as [sy | sy | | sy my ey] eqn:Ey; try discriminate;
    intros _ _;
    match goal with
    | |- context [SFcompare ?a ?b] =>
        destruct (SFcompare a b) as [[ | | ] | ] eqn:Ec; simpl; auto;
        try discriminate
    end;
    simpl in Ec; discriminate.
Qed.

(** No float lies below a positive float of lower exponent and from a
    positive float of higher exponent on. *)
Lemma SF_between_false (x : spec_float) (m1 : positive) (e1 : Z)
    (m2 : positive) (e2 : Z) :
  (e1 < e2)%Z ->
  SFltb x (S754_finite false m1 e1) = true ->
  SFleb (S754_finite false m2 e2) x = true ->
  False.
Proof.
  intros He. destruct x as [s | s | | s m e]; cbv [SFltb SFleb SFcompare];
    try discriminate; try (destruct s; discriminate).
  destruct s; [discriminate |].
  destruct (Z.compare_spec e e1), (Z.compare_spec e2 e);
    try discriminate; lia.
Qed.

(** A float equal to zero stands below whatever zero stands below. *)
Lemma eqb_zero_ltb (x c : float) : (x =? 0) = true -> (x <? c) = (0 <? c).
Proof.
  rewrite eqb_spec, !ltb_spec.
  change (Prim2SF 0) with (S754_zero false).
  destruct (Prim2SF x) as [s | s | | s m e]; unfold SFeqb; simpl;
    try discriminate.
  - intros _. unfold SFltb. destruct (Prim2SF c); reflexivity.
  - destruct s; discriminate.
  - destruct s; discriminate.
Qed.
Lemma leb_refl (x : float) : is_nan x = false -> (x <=? x) = true.
Proof.
  unfold is_nan. rewrite eqb_spec, leb_spec. unfold SFeqb, SFleb.
  destruct (SFcompare (Prim2SF x) (Prim2SF x)) as [[ | | ] | ];
    simpl; auto; discriminate.
Qed.

(** [np.clip] passes NaN through and brings every other float into
    [[a_min, a_max]]. *)
Lemma b64_clip (x a_min a_max : float) :
  (a_min <=? a_max) = true ->
  if is_nan x then is_nan (np_clip x a_min a_max) = true
  else (a_min <=? np_clip x a_min a_max) = true /\
       (np_clip x a_min a_max <=? a_max) = true.
Proof.
  intros Hle. destruct (leb_not_nan _ _ Hle) as [Hmin Hmax].
  unfold np_clip. cbn [fltb binary64].
  destruct (is_nan x) eqn:Hx.
  - rewrite (nan_ltb_l x a_min Hx), (nan_ltb_r a_max x Hx). exact Hx.
  - destruct (x <? a_min) eqn:Hlo.
    + rewrite (leb_ltb_false _ _ Hle). split; [now apply leb_refl | exact Hle].
    + destruct (a_max <? x) eqn:Hhi.
      * split; [exact Hle | now apply leb_refl].
      * split; now apply not_ltb_leb.
Qed.

Lemma b64_scalers_nonzero : scalers_nonzero (F := float) StressEstimator_init.
Proof. split; [| repeat constructor]; vm_compute; reflexivity. Qed.

(** [max(x, c)] is not zero when the literal [c] is positive. *)
Lemma b64_py_max_nonzero (x c : float) :
  (0 <? c) = true -> (py_max x c =? lit 0) = false.
Proof.
  intros Hc. unfold py_max. cbn [fltb feqb binary64].
  change (lit (F := float) 0) with 0.
  destruct (x <? c) eqn:Hlt.
  - destruct (c =? 0) eqn:Hz; [| reflexivity].
    rewrite eqb_spec in Hz. rewrite ltb_spec in Hc.
    change (Prim2SF 0) with (S754_zero false) in *.
    unfold SFeqb in Hz. unfold SFltb in Hc.
    rewrite (SFcompare_antisym (S754_zero false) (Prim2SF c)) in Hz.
    destruct (SFcompare (S754_zero false) (Prim2SF c)) as [[ | | ] | ];
      simpl in Hz; discriminate.
  - destruct (x =? 0) eqn:Hz; [| reflexivity].
    rewrite (eqb_zero_ltb x c Hz), Hc in Hlt. discriminate.
Qed.

Lemma b64_truediv_py_max (x y c : float) :
  (0 <? c) = true -> truediv x (py_max y c) = Ok (fdiv x (py_max y c)).
Proof. intros Hc. apply truediv_ok. now apply b64_py_max_nonzero. Qed.
End Binary64.

(** *** No method of the extractor raises in binary64 *)

Section Binary64Total.

Lemma b64_eps_pos : PrimFloat.ltb 0 (lit 1e-5) = true.
Proof. vm_compute. reflexivity. Qed.

Lemma b64_milli_pos : PrimFloat.ltb 0 (lit 1e-3) = true.
Proof. vm_compute. reflexivity. Qed.

Lemma b64_eye_aspect_ratio_ok (self : FeatureExtractor float)
    (landmarks : ndarray float) (lids horizontal_pair : nat * nat) :
  exists ratio, _eye_aspect_ratio self landmarks lids horizontal_pair = Ok ratio.
Proof.
  unfold _eye_aspect_ratio.
  rewrite b64_truediv_py_max by exact b64_eps_pos. eauto.
Qed.

Lemma b64_eye_ratio_ok (self : FeatureExtractor float) (frame : LandmarkFrame float) :
  exists ratio, eye_ratio self frame = Ok ratio.
Proof.
  unfold eye_ratio.
  destruct (b64_eye_aspect_ratio_ok self (landmarks frame)
              LEFT_EYE_LIDS LEFT_EYE_HORIZONTAL) as [l ->].
  destruct (b64_eye_aspect_ratio_ok self (landmarks frame)
              RIGHT_EYE_LIDS RIGHT_EYE_HORIZONTAL) as [r ->].
  cbn [bind]. eauto.
Qed.

Lemma b64_blink_rate_of_ratio_ok (self : FeatureExtractor float) (ratio t : float) :
  exists rate self', blink_rate_of_ratio self ratio t = Ok (rate, self').
Proof.
  unfold blink_rate_of_ratio.
  rewrite b64_truediv_py_max by exact b64_milli_pos. cbn [bind]. eauto.
Qed.

Lemma b64_compute_blink_rate_ok (self : FeatureExtractor float)
    (frame : LandmarkFrame float) :
  exists rate self', _compute_blink_rate self frame = Ok (rate, self').
Proof.
  unfold _compute_blink_rate.
  destruct (b64_eye_ratio_ok self frame) as [ratio ->]. cbn [bind].
  apply b64_blink_rate_of_ratio_ok.
Qed.

Lemma b64_feed_ratios_ok (samples : list (float * float)) :
  forall self : FeatureExtractor float,
    exists self', feed_ratios self samples = Ok self'.
Proof.
  induction samples as [| [ratio t] rest IH]; intros self; cbn [feed_ratios].
  - eauto.
  - destruct (b64_blink_rate_of_ratio_ok self ratio t) as [rate [self1 ->]].
    cbn [bind]. apply IH.
Qed.

Lemma b64_lip_tension_raw_ok (landmarks : ndarray float) :
  exists tension, lip_tension_raw landmarks = Ok tension.
Proof.
  unfold lip_tension_raw.
  rewrite b64_truediv_py_max by exact b64_eps_pos. cbn [bind]. eauto.
Qed.

Lemma b64_compute_lip_tension_ok (self : FeatureExtractor float)
    (landmarks : ndarray float) :
  exists v self', _compute_lip_tension self landmarks = Ok (v, self').
Proof.
  unfold _compute_lip_tension.
  destruct (b64_lip_tension_raw_ok landmarks) as [tension ->].
  cbn [bind]. eauto.
Qed.

Lemma b64_compute_symmetry_ok (self : FeatureExtractor float)
    (landmarks : ndarray float) :
  exists v self', _compute_symmetry self landmarks = Ok (v, self').
Proof.
  unfold _compute_symmetry.
  rewrite b64_truediv_py_max by exact b64_eps_pos. cbn [bind]. eauto.
Qed.

Lemma b64_compute_head_nod_ok (self : FeatureExtractor float)
    (frame : LandmarkFrame float) :
  exists v self', _compute_head_nod self frame = Ok (v, self').
Proof.
  unfold _compute_head_nod. destruct (previous_nose_height self); eauto.
Qed.

Lemma b64_extract_ok (self : FeatureExtractor float) (frame : LandmarkFrame float) :
  exists features self', extract self frame = Ok (features, self').
Proof.
  unfold extract. unfold _compute_eyebrow_raise at 1. cbn [bind].
  match goal with
  | |- context [_compute_lip_tension ?s ?l] =>
      destruct (b64_compute_lip_tension_ok s l) as [v2 [s2 ->]]
  end. cbn [bind].
  destruct (b64_compute_head_nod_ok s2 frame) as [v3 [s3 ->]]. cbn [bind].
  destruct (b64_compute_symmetry_ok s3 (landmarks frame)) as [v4 [s4 ->]].
  cbn [bind].
  destruct (b64_compute_blink_rate_ok s4 frame) as [v5 [s5 ->]]. cbn [bind].
  eauto.
Qed.
End Binary64Total.

(** ** Facts of the real reading *)

Section Real.
Local Open Scope R_scope.

Lemma Rltb_true (x y : R) : Rltb x y = true <-> x < y.
Proof. unfold Rltb. destruct (Rlt_dec x y); split; intros; easy. Qed.

Lemma Rltb_false (x y : R) : Rltb x y = false <-> y <= x.
Proof. unfold Rltb. destruct (Rlt_dec x y); split; intros; try easy; lra. Qed.

Lemma Reqb_false (x y : R) : x <> y -> Reqb x y = false.
Proof. intros Hxy. unfold Reqb. destruct (Req_dec_T x y); easy. Qed.

Lemma real_py_max (a b : R) : py_max a b = Rmax a b.
Proof.
  unfold py_max, Rmax. cbn [fltb real]. unfold Rltb.
  destruct (Rlt_dec a b), (Rle_dec a b); lra.
Qed.

Lemma real_py_min (a b : R) : py_min a b = Rmin a b.
Proof.
  unfold py_min, Rmin. cbn [fltb real]. unfold Rltb.
  destruct (Rlt_dec b a), (Rle_dec a b); lra.
Qed.

Lemma real_np_clip (x a_min a_max : R) :
  a_min <= a_max -> np_clip x a_min a_max = Rmax a_min (Rmin x a_max).
Proof.
  intros Hle. unfold np_clip, Rmax, Rmin. cbn [fltb real]. unfold Rltb.
  destruct (Rlt_dec x a_min), (Rle_dec x a_max);
  repeat match goal with
         | |- context [Rlt_dec ?a ?b] => destruct (Rlt_dec a b)
         | |- context [Rle_dec ?a ?b] => destruct (Rle_dec a b)
         end; lra.
Qed.

Lemma real_np_clip_bounds (x a_min a_max : R) :
  a_min <= a_max -> a_min <= np_clip x a_min a_max <= a_max.
Proof.
  intros Hle. rewrite real_np_clip by exact Hle.
  unfold Rmax, Rmin.
  destruct (Rle_dec x a_max), (Rle_dec a_min x);
    repeat match goal with
           | |- context [Rle_dec ?a ?b] => destruct (Rle_dec a b)
           end; lra.
Qed.

End Real.

(** The literals of the source, as real numbers. *)
Ltac real_lits := cbn [lit real] in *; unfold Q2R in *; cbn [Qnum Qden] in *.

Section RealStress.
Local Open Scope string_scope.
Local Open Scope R_scope.


Lemma real_weights_nonneg (key : string) :
  0 <= dict_get (weights (F := R) StressEstimator_init) key (lit 0.0).
Proof.
  apply (dict_get_ind (fun v : R => 0 <= v)).
  - real_lits. lra.
  - repeat constructor; cbn [snd]; real_lits; lra.
Qed.

Lemma real_scalers_nonzero : scalers_nonzero (F := R) StressEstimator_init.
Proof.
  split; [| repeat constructor]; cbn [snd feqb real];
    apply Reqb_false; real_lits; lra.
Qed.

Lemma real_truediv_scale (key : string) (value : R) :
  truediv value (dict_get (scalers StressEstimator_init) key (lit 1.0))
  = Ok (fdiv value (dict_get (scalers StressEstimator_init) key (lit 1.0))).
Proof. apply truediv_ok, scale_nonzero, real_scalers_nonzero. Qed.



End RealStress.

Section RealWindow.
Local Open Scope R_scope.

Lemma sorted_app_inv (l1 l2 : list R) :
  StronglySorted Rle (l1 ++ l2) ->
  StronglySorted Rle l1 /\ StronglySorted Rle l2 /\
  (forall x y, In x l1 -> In y l2 -> x <= y).
Proof.
  induction l1 as [| a l1 IH]; simpl; intros Hs.
  - repeat split; [constructor | exact Hs | contradiction].
  - apply StronglySorted_inv in Hs as [Hs Ha].
    destruct (IH Hs) as [H1 [H2 H12]].
    rewrite Forall_app in Ha. destruct Ha as [Ha1 Ha2].
    repeat split; [constructor; assumption | exact H2 |].
    intros x y [<- | Hx] Hy.
    + rewrite Forall_forall in Ha2. now apply Ha2.
    + now apply H12.
Qed.

Lemma in_window_true (W latest t : R) :
  in_window W latest t = true <-> latest - t <= W.
Proof.
  unfold in_window. rewrite negb_true_iff. apply Rltb_false.
Qed.

(** On a non-decreasing deque the loop of [add] keeps exactly the events of
    the window. *)
Lemma real_popleft_while_filter (W latest : R) (l : list R) :
  StronglySorted Rle l ->
  popleft_while latest W l = filter (in_window W latest) l.
Proof.
  induction 1 as [| t0 rest Hs IH Hall]; cbn [popleft_while filter].
  - reflexivity.
  - cbn [fltb fsub real]. unfold in_window at 1.
    destruct (Rltb W (latest - t0)) eqn:Hold; cbn [negb].
    + exact IH.
    + f_equal. symmetry. apply forallb_filter_id. apply forallb_forall.
      intros t Ht. apply in_window_true.
      apply Rltb_false in Hold. rewrite Forall_forall in Hall.
      specialize (Hall t Ht). lra.
Qed.

Lemma filter_in_window_later (W prev latest : R) (l : list R) :
  prev <= latest ->
  filter (in_window W latest) (filter (in_window W prev) l)
  = filter (in_window W latest) l.
Proof.
  intros Hle. induction l as [| t l IH]; cbn [filter]; [reflexivity |].
  destruct (in_window W prev t) eqn:Hp; cbn [filter].
  - rewrite IH. reflexivity.
  - destruct (in_window W latest t) eqn:Hl; [| exact IH].
    apply in_window_true in Hl.
    assert (Hp' : in_window W prev t = true) by (apply in_window_true; lra).
    congruence.
Qed.

Lemma sorted_filter (f : R -> bool) (l : list R) :
  StronglySorted Rle l -> StronglySorted Rle (filter f l).
Proof.
  induction 1 as [| t rest Hs IH Hall]; cbn [filter]; [constructor |].
  destruct (f t); [| exact IH].
  constructor; [exact IH |].
  rewrite Forall_forall in *. intros x Hx. apply filter_In in Hx. now apply Hall.
Qed.

Lemma sorted_snoc (l : list R) (latest : R) :
  StronglySorted Rle l -> (forall t, In t l -> t <= latest) ->
  StronglySorted Rle (l ++ [latest]).
Proof.
  induction 1 as [| t rest Hs IH Hall]; intros Hle; cbn [app].
  - repeat constructor.
  - constructor.
    + apply IH. intros x Hx. apply Hle. now right.
    + rewrite Forall_app. split; [exact Hall |].
      constructor; [| constructor]. apply Hle. now left.
Qed.

(** After the adds of a non-decreasing sequence, the counter holds exactly
    the events of the window of the latest one. *)
Lemma real_add_all_filter (W : R) (ts : list R) :
  forall latest : R,
    StronglySorted Rle (ts ++ [latest]) ->
    timestamps (add_all (empty_metric W) (ts ++ [latest]))
    = filter (in_window W latest) (ts ++ [latest]).
Proof.
  induction ts as [| prev ts IH] using rev_ind; intros latest Hs.
  - cbn [app add_all fold_left add empty_metric timestamps window_seconds].
    apply real_popleft_while_filter. exact Hs.
  - unfold add_all. rewrite fold_left_app. cbn [fold_left].
    fold (add_all (empty_metric W) (ts ++ [prev])).
    destruct (sorted_app_inv _ _ Hs) as [Hs1 [_ Hle]].
    assert (Hprev : prev <= latest).
    { apply Hle; [apply in_or_app; right |]; now left. }
    unfold add. cbn [timestamps].
    rewrite add_all_window_seconds. cbn [empty_metric window_seconds].
    rewrite (IH prev Hs1).
    rewrite real_popleft_while_filter.
    + rewrite filter_app, filter_in_window_later by exact Hprev.
      rewrite (filter_app _ (ts ++ [prev]) [latest]). reflexivity.
    + apply sorted_snoc; [now apply sorted_filter |].
      intros t Ht. apply filter_In in Ht as [Ht _]. apply Hle; [exact Ht |].
      now left.
Qed.
End RealWindow.

Section RealExtractor.
Local Open Scope R_scope.

Lemma real_lit_eps : lit (F := R) 1e-5 = 1 / 100000.
Proof.
  cbn [lit real]. unfold Q2R.
  replace (Qnum 1e-5) with 1%Z by reflexivity.
  replace (QDen 1e-5) with 100000%Z by reflexivity. lra.
Qed.

Lemma real_lit_milli : lit (F := R) 1e-3 = 1 / 1000.
Proof.
  cbn [lit real]. unfold Q2R.
  replace (Qnum 1e-3) with 1%Z by reflexivity.
  replace (QDen 1e-3) with 1000%Z by reflexivity. lra.
Qed.

Lemma real_lit_0 : lit (F := R) 0 = 0.
Proof. real_lits. lra. Qed.

(** [max(x, c)] with a positive literal [c] is at least [c]. *)
Lemma real_py_max_ge (x c : R) : c <= py_max x c.
Proof. rewrite real_py_max. apply Rmax_r. Qed.

Lemma real_truediv_py_max (x y c : R) :
  0 < c -> truediv x (py_max y c) = Ok (fdiv x (py_max y c)).
Proof.
  intros Hc. apply truediv_ok. cbn [feqb real]. apply Reqb_false.
  pose proof (real_py_max_ge y c). rewrite real_lit_0. lra.
Qed.

Lemma real_norm_nonneg (v : point R) : 0 <= norm v.
Proof. unfold norm. cbn [fsqrt real]. apply sqrt_pos. Qed.

Lemma real_distance_nonneg (a b : point R) : 0 <= _distance a b.
Proof. apply real_norm_nonneg. Qed.

(** A quotient of a non-negative number by [max(y, c)], [c] positive. *)
Lemma real_ratio_nonneg (x y c : R) :
  0 <= x -> 0 < c -> 0 <= x / py_max y c.
Proof.
  intros Hx Hc. pose proof (real_py_max_ge y c).
  apply Rmult_le_pos; [exact Hx |]. left. apply Rinv_0_lt_compat. lra.
Qed.

Lemma real_fold_sum_bounds (a b : R) (xs : list R) :
  Forall (fun x => a <= x <= b) xs ->
  forall acc : R,
    acc + INR (List.length xs) * a <= fold_left Rplus xs acc
    <= acc + INR (List.length xs) * b.
Proof.
  induction 1 as [| x xs Hx _ IH]; intros acc.
  - cbn [fold_left List.length INR]. lra.
  - cbn [fold_left]. specialize (IH (acc + x)).
    change (List.length (x :: xs)) with (S (List.length xs)).
    rewrite S_INR. lra.
Qed.

(** The mean of a non-empty window lies between the bounds of its items. *)
Lemma real_np_mean_bounds (a b : R) (xs : list R) :
  xs <> [] ->
  Forall (fun x => a <= x <= b) xs ->
  a <= np_mean xs <= b.
Proof.
  intros Hne Hall. unfold np_mean, np_sum. cbn [fadd fdiv of_int real].
  rewrite <- INR_IZR_INZ, real_lit_0.
  pose proof (real_fold_sum_bounds a b xs Hall 0) as Hsum.
  assert (Hn : 0 < INR (List.length xs)).
  { destruct xs as [| x xs]; [contradiction |].
    change (List.length (x :: xs)) with (S (List.length xs)).
    rewrite S_INR. pose proof (pos_INR (List.length xs)). lra. }
  set (n := INR (List.length xs)) in *.
  set (s := fold_left Rplus xs 0) in *.
  unfold Rdiv. split.
  - apply Rmult_le_reg_r with n; [exact Hn |].
    rewrite Rmult_assoc, Rinv_l by lra. lra.
  - apply Rmult_le_reg_r with n; [exact Hn |].
    rewrite Rmult_assoc, Rinv_l by lra. lra.
Qed.

Lemma real_np_mean_nonneg (xs : list R) :
  xs <> [] -> Forall (fun x => 0 <= x) xs -> 0 <= np_mean xs.
Proof.
  intros Hne Hall. unfold np_mean, np_sum. cbn [fadd fdiv of_int real].
  rewrite <- INR_IZR_INZ, real_lit_0.
  assert (Hsum : forall acc, 0 <= acc -> 0 <= fold_left Rplus xs acc).
  { clear Hne. induction Hall as [| x xs Hx _ IH]; intros acc Hacc;
      cbn [fold_left]; [exact Hacc | apply IH; lra]. }
  assert (Hn : 0 < INR (List.length xs)).
  { destruct xs as [| x xs]; [contradiction |].
    change (List.length (x :: xs)) with (S (List.length xs)).
    rewrite S_INR. pose proof (pos_INR (List.length xs)). lra. }
  apply Rmult_le_pos; [apply Hsum; lra |].
  left. now apply Rinv_0_lt_compat.
Qed.

Lemma real_lip_tension_raw (landmarks : ndarray R) :
  exists tension,
    lip_tension_raw landmarks = Ok tension /\ 0 <= tension <= 1.
Proof.
  unfold lip_tension_raw.
  rewrite real_truediv_py_max by (rewrite real_lit_eps; lra).
  cbn [bind]. eexists. split; [reflexivity |].
  pose proof (real_np_clip_bounds
                (fdiv (fsub (fdiv (_distance (landmarks LEFT_LIP_CORNER)
                                             (landmarks RIGHT_LIP_CORNER))
                                  (py_max (_distance (landmarks TOP_LIP)
                                                     (landmarks BOTTOM_LIP))
                                          (lit 1e-5)))
                            (lit 5.0)) (lit 55.0))
                (lit 0.0) (lit 1.0)) as Hb.
  real_lits. lra.
Qed.

Lemma real_compute_lip_tension (self : FeatureExtractor R) (landmarks : ndarray R) :
  windows_ok self ->
  exists v self',
    _compute_lip_tension self landmarks = Ok (v, self') /\
    0 <= v <= 1 /\ windows_ok self' /\
    previous_nose_height self' = previous_nose_height self.
Proof.
  intros [He [[Hlmax Hl] [Hn Hs]]]. unfold _compute_lip_tension.
  destruct (real_lip_tension_raw landmarks) as [tension [-> Ht]].
  cbn [bind]. do 2 eexists. split; [reflexivity |].
  assert (Hitems : Forall (fun x => 0 <= x <= 1)
            (items (deque_append (lip_tension (metrics_history self)) tension)))
    by (apply deque_append_items; assumption).
  split; [| split; [| reflexivity]].
  - apply real_np_mean_bounds; [| exact Hitems].
    apply deque_append_nonempty. exact Hlmax.
  - unfold windows_ok. cbn. auto.
Qed.

Lemma real_compute_eyebrow_raise (self : FeatureExtractor R) (landmarks : ndarray R) :
  windows_ok self ->
  exists v self',
    _compute_eyebrow_raise self landmarks = Ok (v, self') /\
    0 <= v /\ windows_ok self' /\
    previous_nose_height self' = previous_nose_height self.
Proof.
  intros [[Hemax He] [Hl [Hn Hs]]]. unfold _compute_eyebrow_raise.
  do 2 eexists. split; [reflexivity |].
  match goal with
  | |- context [deque_append (eyebrow (metrics_history self)) ?x] =>
      set (value := x);
      assert (Hv : 0 <= value)
  end.
  { unfold value. cbn [fadd fmul fabs real].
    match goal with
    | |- 0 <= (Rabs ?p + Rabs ?q) * _ =>
        pose proof (Rabs_pos p); pose proof (Rabs_pos q)
    end.
    real_lits. lra. }
  assert (Hitems : Forall (fun x => 0 <= x)
            (items (deque_append (eyebrow (metrics_history self)) value)))
    by (apply deque_append_items; assumption).
  split; [| split; [| reflexivity]].
  - apply real_np_mean_nonneg; [| exact Hitems].
    apply deque_append_nonempty. exact Hemax.
  - unfold windows_ok. cbn. auto.
Qed.

Lemma real_compute_head_nod (self : FeatureExtractor R) (frame : LandmarkFrame R) :
  windows_ok self ->
  exists v self',
    _compute_head_nod self frame = Ok (v, self') /\
    0 <= v /\ windows_ok self'.
Proof.
  intros [He [Hl [[Hnmax Hn] Hs]]]. unfold _compute_head_nod.
  destruct (previous_nose_height self) as [previous |].
  - do 2 eexists. split; [reflexivity |].
    match goal with
    | |- context [deque_append (nod _) ?x] =>
        set (delta := x); assert (Hd : 0 <= delta)
    end.
    { unfold delta. cbn [fdiv fabs real].
      apply real_ratio_nonneg; [apply Rabs_pos | rewrite real_lit_eps; lra]. }
    cbn [metrics_history set_nose_height set_history nod] in *.
    assert (Hitems : Forall (fun x => 0 <= x)
              (items (deque_append (nod (metrics_history self)) delta)))
      by (apply deque_append_items; assumption).
    split.
    + apply real_np_mean_nonneg; [| exact Hitems].
      apply deque_append_nonempty. exact Hnmax.
    + unfold windows_ok. cbn. auto.
  - do 2 eexists. split; [reflexivity |]. split.
    + real_lits. lra.
    + unfold windows_ok. cbn. auto.
Qed.

Lemma real_compute_symmetry (self : FeatureExtractor R) (landmarks : ndarray R) :
  windows_ok self ->
  exists v self',
    _compute_symmetry self landmarks = Ok (v, self') /\
    0 <= v /\ windows_ok self'.
Proof.
  intros [He [Hl [Hn [Hsmax Hs]]]]. unfold _compute_symmetry.
  rewrite real_truediv_py_max by (rewrite real_lit_eps; lra).
  cbn [bind]. do 2 eexists. split; [reflexivity |].
  match goal with
  | |- context [deque_append (symmetry _) ?x] =>
      set (symmetry_score := x); assert (Hd : 0 <= symmetry_score)
  end.
  { unfold symmetry_score. cbn [fdiv fabs real].
    apply real_ratio_nonneg; [apply Rabs_pos | rewrite real_lit_eps; lra]. }
  assert (Hitems : Forall (fun x => 0 <= x)
            (items (deque_append (symmetry (metrics_history self)) symmetry_score)))
    by (apply deque_append_items; assumption).
  split.
  - apply real_np_mean_nonneg; [| exact Hitems].
    apply deque_append_nonempty. exact Hsmax.
  - unfold windows_ok. cbn. auto.
Qed.

Lemma real_eye_aspect_ratio (self : FeatureExtractor R) (landmarks : ndarray R)
    (lids horizontal_pair : nat * nat) :
  exists ratio,
    _eye_aspect_ratio self landmarks lids horizontal_pair = Ok ratio /\
    0 <= ratio.
Proof.
  unfold _eye_aspect_ratio.
  rewrite real_truediv_py_max by (rewrite real_lit_eps; lra).
  eexists. split; [reflexivity |]. cbn [fdiv real].
  apply real_ratio_nonneg;
    [apply real_distance_nonneg | rewrite real_lit_eps; lra].
Qed.

Lemma real_compute_blink_rate (self : FeatureExtractor R) (frame : LandmarkFrame R) :
  windows_ok self ->
  exists v self',
    _compute_blink_rate self frame = Ok (v, self') /\
    0 <= v /\ windows_ok self'.
Proof.
  intros Hok. unfold _compute_blink_rate, eye_ratio.
  destruct (real_eye_aspect_ratio self (landmarks frame)
              LEFT_EYE_LIDS LEFT_EYE_HORIZONTAL) as [l [-> _]].
  destruct (real_eye_aspect_ratio self (landmarks frame)
              RIGHT_EYE_LIDS RIGHT_EYE_HORIZONTAL) as [r [-> _]].
  cbn [bind]. unfold blink_rate_of_ratio.
  rewrite real_truediv_py_max by (rewrite real_lit_milli; lra).
  cbn [bind]. do 2 eexists. split; [reflexivity |]. split.
  - cbn [fdiv of_int real]. apply real_ratio_nonneg.
    + rewrite <- INR_IZR_INZ. apply pos_INR.
    + rewrite real_lit_milli. lra.
  - exact Hok.
Qed.

Lemma real_init_windows_ok (smoothing_window : Z) (threshold window : R) :
  (1 <= smoothing_window)%Z ->
  exists e0,
    FeatureExtractor_init smoothing_window threshold window = Ok e0 /\
    windows_ok e0.
Proof.
  intros Hsw. unfold FeatureExtractor_init.
  destruct (smoothing_window <? 0)%Z eqn:Hneg; [apply Z.ltb_lt in Hneg; lia |].
  eexists. split; [reflexivity |].
  unfold windows_ok. cbn.
  assert (Hmax : Z.to_nat smoothing_window <> 0%nat) by lia.
  repeat split; auto.
Qed.

(** One frame through [extract], over the reals. *)
Lemma real_extract (self : FeatureExtractor R) (frame : LandmarkFrame R) :
  windows_ok self ->
  exists eyebrow lip nod symmetry blink self',
    extract self frame
    = Ok ([ ("eyebrow_raise", eyebrow); ("lip_tension", lip);
            ("head_nod_intensity", nod); ("symmetry_delta", symmetry);
            ("blink_rate", blink) ]%string, self') /\
    0 <= eyebrow /\ 0 <= lip <= 1 /\ 0 <= nod /\ 0 <= symmetry /\ 0 <= blink /\
    windows_ok self'.
Proof.
  intros Hok. unfold extract.
  destruct (real_compute_eyebrow_raise self (landmarks frame) Hok)
    as [v1 [s1 [-> [H1 [Hok1 _]]]]]. cbn [bind].
  destruct (real_compute_lip_tension s1 (landmarks frame) Hok1)
    as [v2 [s2 [-> [H2 [Hok2 _]]]]]. cbn [bind].
  destruct (real_compute_head_nod s2 frame Hok2)
    as [v3 [s3 [-> [H3 Hok3]]]]. cbn [bind].
  destruct (real_compute_symmetry s3 (landmarks frame) Hok3)
    as [v4 [s4 [-> [H4 Hok4]]]]. cbn [bind].
  destruct (real_compute_blink_rate s4 frame Hok4)
    as [v5 [s5 [-> [H5 Hok5]]]]. cbn [bind].
  exists v1, v2, v3, v4, v5, s5. auto 10.
Qed.

End RealExtractor.

(** * The claims *)

Section StressClaims.
Local Open Scope string_scope.

(** C1, as stated, fails in binary64: a NaN feature value makes the weighted
    sum NaN, [np.clip] passes it through, and the score is NaN, which is not
    within [[0, 1.5]]. *)
Lemma predict_nan_feature_unclamped :
  exists r : StressScore float,
    predict StressEstimator_init [("blink_rate", nan)] = Ok r /\
    PrimFloat.is_nan (score r) = true /\
    PrimFloat.leb (lit 0.0) (score r) = false /\
    PrimFloat.leb (score r) (lit 1.5) = false.
Proof.
  eexists. split; [vm_compute; reflexivity |].
  repeat split; vm_compute; reflexivity.
Qed.

(** C1, amended: in binary64 [predict] returns for every feature vector, and
    its score is NaN when the weighted sum is NaN and lies within [[0, 1.5]]
    otherwise; over the reals the score always lies within [[0, 1.5]]. *)
Theorem predict_score_clamped :
  (forall features : dict float, exists (s : float) (r : StressScore float),
      predict_loop StressEstimator_init features (lit 0.0) = Ok s /\
      predict StressEstimator_init features = Ok r /\
      if PrimFloat.is_nan s then PrimFloat.is_nan (score r) = true
      else PrimFloat.leb (lit 0.0) (score r) = true /\
           PrimFloat.leb (score r) (lit 1.5) = true)
  /\
  (forall features : dict R, exists r : StressScore R,
      predict StressEstimator_init features = Ok r /\
      (0 <= score r <= 1.5)%R).
Proof.
  split; intros features.
  - destruct (predict_loop_total StressEstimator_init features
                b64_scalers_nonzero (lit 0.0)) as [s Hs].
    destruct (predict_of_sum features s Hs) as [r [Hr [Hscore _]]].
    exists s, r. repeat split; try assumption.
    rewrite Hscore. apply b64_clip. vm_compute. reflexivity.
  - destruct (predict_loop_total StressEstimator_init features
                real_scalers_nonzero (lit 0.0)) as [s Hs].
    destruct (predict_of_sum features s Hs) as [r [Hr [Hscore _]]].
    exists r. split; [exact Hr |]. rewrite Hscore.
    pose proof (real_np_clip_bounds s (lit 0.0) (lit 1.5)) as Hb.
    real_lits. lra.
Qed.



(** C3: [predict] classifies with half-open intervals.  In binary64, a score
    below 0.35 is "calm", a score from 0.35 and below 0.65 is "mild", a
    score from 0.65 is "high"; the vector [{lip_tension: 1.4}] scores exactly
    0.35 and is "mild", and [{lip_tension: 1.0, head_nod_intensity: 3.0,
    blink_rate: 30.0}] scores exactly 0.65 and is "high". *)
Theorem predict_half_open_levels :
  (forall (features : dict float) (r : StressScore float),
      predict StressEstimator_init features = Ok r ->
      (PrimFloat.ltb (score r) (lit 0.35) = true -> level r = "calm") /\
      (PrimFloat.leb (lit 0.35) (score r) = true ->
       PrimFloat.ltb (score r) (lit 0.65) = true -> level r = "mild") /\
      (PrimFloat.leb (lit 0.65) (score r) = true -> level r = "high"))
  /\
  (exists r : StressScore float,
      predict StressEstimator_init [("lip_tension", 1.4%float)] = Ok r /\
      score r = lit 0.35 /\ level r = "mild")
  /\
  (exists r : StressScore float,
      predict StressEstimator_init
        [("lip_tension", 1.0%float); ("head_nod_intensity", 3.0%float);
         ("blink_rate", 30.0%float)] = Ok r /\
      score r = lit 0.65 /\ level r = "high").
Proof.
  split; [| split].
  - intros features r Hr.
    destruct (predict_loop_total StressEstimator_init features
                b64_scalers_nonzero (lit 0.0)) as [s Hs].
    destruct (predict_of_sum features s Hs) as [r0 [Hr0 [_ Hlevel]]].
    rewrite Hr in Hr0. injection Hr0 as <-.
    rewrite Hlevel. unfold level_of. cbn [fltb binary64].
    repeat split.
    + intros Hcalm. rewrite Hcalm. reflexivity.
    + intros Hge Hlt. rewrite (leb_ltb_false _ _ Hge), Hlt. reflexivity.
    + intros Hge. rewrite (leb_ltb_false _ _ Hge).
      assert (Hcalm : PrimFloat.ltb (score r) (lit 0.35) = false).
      { destruct (PrimFloat.ltb (score r) (lit 0.35)) eqn:Hlt; [| reflexivity].
        exfalso.
        (* 0.65 <= score < 0.35 *)
        rewrite ltb_spec in Hlt. rewrite leb_spec in Hge.
        replace (Prim2SF (lit 0.35))
          with (S754_finite false 6305039478318694 (-54)) in Hlt
          by (vm_compute; reflexivity).
        replace (Prim2SF (lit 0.65))
          with (S754_finite false 5854679515581645 (-53)) in Hge
          by (vm_compute; reflexivity).
        eapply SF_between_false; [| exact Hlt | exact Hge]. lia. }
      rewrite Hcalm. reflexivity.
  - eexists. split; [vm_compute; reflexivity |].
    split; vm_compute; reflexivity.
  - eexists. split; [vm_compute; reflexivity |].
    split; vm_compute; reflexivity.
Qed.

Lemma predict_half_open_levels_witness :
  level {| score := lit (F := float) 0.35; label := "Slight Stress";
           icon := "🟡"; level := "mild" |} = "mild".
Proof.
  destruct predict_half_open_levels as [Hlevels _].
  apply (Hlevels [("lip_tension", 1.4%float)]).
  - vm_compute. reflexivity.
  - vm_compute. reflexivity.
  - vm_compute. reflexivity.
Defined.
End StressClaims.

Section ExtractorClaims.
Local Open Scope string_scope.

(** C4: a blink is recorded only on the frame that enters closure.  In
    binary64, whatever the samples, the events recorded are the calls of
    [add] on the timestamps of the closing edges, in order; the ratios
    [0.30, 0.20, 0.20, 0.20, 0.30] at the times 10 to 14, under the default
    threshold 0.23, record the single event 11, the time of the first ratio
    below the threshold, and so do five frames whose eyes have these
    ratios. *)
Theorem blink_recorded_on_closing_edge :
  (forall (self : FeatureExtractor float) (samples : list (float * float)),
      exists self',
        feed_ratios self samples = Ok self' /\
        blink_events self' =
          add_all (blink_events self)
            (closing_edges (blink_threshold self) (previous_blink_state self)
               samples))
  /\
  (exists e0 e : FeatureExtractor float,
      FeatureExtractor_default = Ok e0 /\
      feed_ratios e0
        [ (lit 0.30, lit 10); (lit 0.20, lit 11); (lit 0.20, lit 12);
          (lit 0.20, lit 13); (lit 0.30, lit 14) ] = Ok e /\
      timestamps (blink_events e) = [lit 11] /\
      count (blink_events e) = 1%nat)
  /\
  (exists e0 e : FeatureExtractor float,
      FeatureExtractor_default = Ok e0 /\
      feed_frames e0
        [ {| landmarks := eyes (lit 0.30); timestamp := lit 10 |};
          {| landmarks := eyes (lit 0.20); timestamp := lit 11 |};
          {| landmarks := eyes (lit 0.20); timestamp := lit 12 |};
          {| landmarks := eyes (lit 0.20); timestamp := lit 13 |};
          {| landmarks := eyes (lit 0.30); timestamp := lit 14 |} ] = Ok e /\
      timestamps (blink_events e) = [lit 11] /\
      count (blink_events e) = 1%nat).
Proof.
  split; [| split].
  - intros self samples.
    destruct (b64_feed_ratios_ok samples self) as [self' Hfeed].
    exists self'. split; [exact Hfeed |].
    apply feed_ratios_edges. exact Hfeed.
  - do 2 eexists. split; [vm_compute; reflexivity |].
    split; [vm_compute; reflexivity |].
    split; vm_compute; reflexivity.
  - do 2 eexists. split; [vm_compute; reflexivity |].
    split; [vm_compute; reflexivity |].
    split; vm_compute; reflexivity.
Qed.

(** C7: a call of [_compute_head_nod] that finds no previous nose height
    returns exactly 0.0, stores the current nose height and leaves the
    rolling windows as they were, in every arithmetic and for every
    landmark set; a new extractor has no previous nose height and an empty
    nod window, and in binary64 its first [extract] reports a head-nod
    intensity of 0.0 with the nod window still empty. *)
Theorem head_nod_first_frame :
  (forall (F : Type) (A : Arith F) (self : FeatureExtractor F)
          (frame : LandmarkFrame F),
      previous_nose_height self = None ->
      exists self',
        _compute_head_nod self frame = Ok (lit 0.0, self') /\
        previous_nose_height self' = Some (py (landmarks frame NOSE_TIP)) /\
        metrics_history self' = metrics_history self)
  /\
  (forall (smoothing_window : Z) (blink_threshold blink_window_seconds : float)
          (frame : LandmarkFrame float),
      (0 <= smoothing_window)%Z ->
      exists e0 features e1,
        FeatureExtractor_init smoothing_window blink_threshold
          blink_window_seconds = Ok e0 /\
        previous_nose_height e0 = None /\
        extract e0 frame = Ok (features, e1) /\
        dict_getitem features "head_nod_intensity" = Ok (lit 0.0) /\
        items (nod (metrics_history e1)) = [] /\
        previous_nose_height e1 = Some (py (landmarks frame NOSE_TIP))).
Proof.
  split.
  - intros F A self frame Hnone. eexists.
    split; [apply head_nod_first; exact Hnone |]. split; reflexivity.
  - intros sw thr w frame Hsw. unfold FeatureExtractor_init.
    destruct (sw <? 0)%Z eqn:Hneg; [apply Z.ltb_lt in Hneg; lia |].
    eexists. 
    destruct (b64_extract_ok
                {| smoothing_window := sw; blink_threshold := thr;
                   previous_blink_state := false;
                   metrics_history :=
                     let empty := {| maxlen := Z.to_nat sw; items := [] |} in
                     {| eyebrow := empty; lip_tension := empty;
                        nod := empty; symmetry := empty |};
                   blink_events := {| window_seconds := w; timestamps := [] |};
                   previous_nose_height := None |} frame)
      as [features [e1 Hextract]].
    exists features, e1.
    split; [reflexivity |]. split; [reflexivity |].
    split; [exact Hextract |].
    pose proof Hextract as Hfirst.
    apply extract_head_nod_first in Hfirst as [Hnod [Hwin Hprev]];
      [| reflexivity].
    rewrite Hwin. auto.
Qed.

Lemma head_nod_first_frame_witness :
  exists self' : FeatureExtractor float,
    _compute_head_nod
      {| smoothing_window := 5; blink_threshold := lit 0.23;
         previous_blink_state := false;
         metrics_history :=
           let empty := {| maxlen := 5; items := [] |} in
           {| eyebrow := empty; lip_tension := empty;
              nod := empty; symmetry := empty |};
         blink_events := {| window_seconds := lit 60.0; timestamps := [] |};
         previous_nose_height := None |}
      {| landmarks := eyes (lit 0.30); timestamp := lit 10 |}
    = Ok (lit 0.0, self') /\
    previous_nose_height self' = Some (lit 0) /\
    items (nod (metrics_history self')) = [].
Proof.
  destruct head_nod_first_frame as [Hfirst _].
  destruct (Hfirst float binary64
              {| smoothing_window := 5; blink_threshold := lit 0.23;
                 previous_blink_state := false;
                 metrics_history :=
                   let empty := {| maxlen := 5; items := [] |} in
                   {| eyebrow := empty; lip_tension := empty;
                      nod := empty; symmetry := empty |};
                 blink_events := {| window_seconds := lit 60.0; timestamps := [] |};
                 previous_nose_height := None |}
              {| landmarks := eyes (lit 0.30); timestamp := lit 10 |}
              eq_refl) as [self' [Hcall [Hprev Hhist]]].
  exists self'. split; [exact Hcall |]. split.
  - rewrite Hprev. vm_compute. reflexivity.
  - rewrite Hhist. reflexivity.
Defined.
End ExtractorClaims.

Section WindowClaims.
Local Open Scope R_scope.


End WindowClaims.

Section GeometryClaims.
Local Open Scope string_scope.



End GeometryClaims.

Section SafetyClaims.
Local Open Scope string_scope.








End SafetyClaims.

(** * Further properties of the code *)

Section RollingWindow.
Context {F : Type} `{Arith F}.

Lemma lastn_all (k : nat) (xs : list F) :
  (List.length xs <= k)%nat -> lastn k xs = xs.
Proof.
  intros Hle. unfold lastn.
  replace (List.length xs - k)%nat with 0%nat by lia. reflexivity.
Qed.

Lemma lastn_length (k : nat) (xs : list F) :
  List.length (lastn k xs) = Nat.min k (List.length xs).
Proof. unfold lastn. rewrite length_skipn. lia. Qed.

Lemma lastn_app (k : nat) (xs ys : list F) :
  lastn k (lastn k xs ++ ys) = lastn k (xs ++ ys).
Proof.
  unfold lastn. rewrite !length_app, length_skipn.
  destruct (Nat.le_gt_cases (List.length xs) k) as [Hle | Hgt].
  - replace (List.length xs - k)%nat with 0%nat by lia. cbn [skipn].
    f_equal. lia.
  - rewrite !skipn_app, length_skipn.
    rewrite skipn_skipn. f_equal.
    + f_equal. lia.
    + f_equal. lia.
Qed.

Lemma deque_append_lastn (d : deque F) (x : F) :
  (List.length (items d) <= maxlen d)%nat ->
  items (deque_append d x) = lastn (maxlen d) (items d ++ [x]).
Proof.
  intros Hle. unfold deque_append, lastn. cbn [items].
  rewrite length_app. cbn [List.length].
  destruct (Nat.eqb_spec (maxlen d) 0) as [Hz | Hnz].
  - destruct (items d) as [| y ys]; [| cbn in Hle; lia].
    rewrite Hz. reflexivity.
  - destruct (Nat.ltb_spec (List.length (items d)) (maxlen d)) as [Hlt | Hge].
    + replace (List.length (items d) + 1 - maxlen d)%nat with 0%nat by lia.
      reflexivity.
    + replace (List.length (items d) + 1 - maxlen d)%nat with 1%nat by lia.
      destruct (items d) as [| y ys]; [cbn in Hge; lia | reflexivity].
Qed.

Lemma window_fold_lastn (xs : list F) :
  forall d : deque F,
    (List.length (items d) <= maxlen d)%nat ->
    maxlen (fold_left deque_append xs d) = maxlen d /\
    items (fold_left deque_append xs d) = lastn (maxlen d) (items d ++ xs).
Proof.
  induction xs as [| x xs IH]; intros d Hle; cbn [fold_left].
  - rewrite app_nil_r. split; [reflexivity |]. symmetry. now apply lastn_all.
  - assert (Hitems := deque_append_lastn d x Hle).
    assert (Hle' : (List.length (items (deque_append d x))
                    <= maxlen (deque_append d x))%nat).
    { rewrite Hitems, lastn_length. cbn [maxlen deque_append]. lia. }
    destruct (IH (deque_append d x) Hle') as [Hmax Hfold].
    split; [exact Hmax |].
    rewrite Hfold, Hitems. cbn [maxlen deque_append].
    rewrite lastn_app, <- app_assoc. reflexivity.
Qed.

(** X1: a rolling window of capacity [k] holds the last [k] of the values
    appended to it, in order, and so never more than [k]. *)
Theorem window_holds_last_values (k : nat) (xs : list F) :
  items (window_after k xs) = lastn k xs /\
  (List.length (items (window_after k xs)) <= k)%nat.
Proof.
  unfold window_after.
  destruct (window_fold_lastn xs {| maxlen := k; items := [] |}) as [_ Hitems];
    [cbn; lia |].
  cbn [maxlen items app] in Hitems. rewrite Hitems.
  split; [reflexivity |]. rewrite lastn_length. lia.
Qed.
End RollingWindow.

Section SmoothingReal.
Local Open Scope R_scope.



End SmoothingReal.

Section CounterGeneric.
Context {F : Type} `{Arith F}.

Lemma popleft_while_suffix (timestamp window : F) (l : list F) :
  exists evicted, l = evicted ++ popleft_while timestamp window l.
Proof.
  induction l as [| t0 rest [evicted IH]]; cbn [popleft_while].
  - exists []. reflexivity.
  - destruct (fltb window (fsub timestamp t0)).
    + exists (t0 :: evicted). cbn [app]. now f_equal.
    + exists []. reflexivity.
Qed.

(** X3: in every arithmetic, [add] only drops events from the front: what
    it stores is a suffix of the old events followed by the new one, so it
    never reorders or repeats an event, and the count grows by at most
    one. *)
Theorem add_keeps_a_suffix (self : TemporalMetric F) (timestamp : F) :
  (exists evicted,
      timestamps self ++ [timestamp]
      = evicted ++ timestamps (add self timestamp)) /\
  (count (add self timestamp) <= S (count self))%nat /\
  window_seconds (add self timestamp) = window_seconds self.
Proof.
  destruct (popleft_while_suffix timestamp (window_seconds self)
              (timestamps self ++ [timestamp])) as [evicted Hsuffix].
  split; [exists evicted; exact Hsuffix |]. split; [| reflexivity].
  unfold count. cbn [add timestamps].
  apply (f_equal (@List.length F)) in Hsuffix.
  rewrite !length_app in Hsuffix. cbn [List.length] in Hsuffix. lia.
Qed.
End CounterGeneric.

Section PredictGeneric.
Context {F : Type} `{Arith F}.
Local Open Scope string_scope.

(** X4: whatever the configuration and the features, a score that
    [predict] returns carries one of the three rows of [OUTPUT_LABELS]:
    its level, icon and label are never mixed and never anything else. *)
Theorem predict_returns_a_label_row (self : StressEstimator F)
    (features : dict F) (r : StressScore F) :
  predict self features = Ok r ->
  In (level r, (icon r, label r)) OUTPUT_LABELS.
Proof.
  unfold predict.
  destruct (predict_loop self features (lit 0.0)) as [s |];
    cbn [bind]; [| discriminate].
  destruct (dict_getitem (thresholds self) "calm") as [calm |];
    cbn [bind]; [| discriminate].
  destruct (fltb (np_clip s (lit 0.0) (lit 1.5)) calm).
  - cbn. intros Hr. injection Hr as <-. cbn. auto.
  - destruct (dict_getitem (thresholds self) "mild") as [mild |];
      cbn [bind]; [| discriminate].
    destruct (fltb (np_clip s (lit 0.0) (lit 1.5)) mild); cbn;
      intros Hr; injection Hr as <-; cbn; auto.
Qed.
End PredictGeneric.

Lemma predict_returns_a_label_row_witness :
  In ("mild", ("🟡", "Slight Stress"))%string OUTPUT_LABELS.
Proof.
  apply (predict_returns_a_label_row (F := float) StressEstimator_init
           [("lip_tension"%string, lit 1.4)]
           {| score := lit 0.35; label := "Slight Stress"; icon := "🟡";
              level := "mild" |}).
  vm_compute. reflexivity.
Defined.

Section ExtractGeneric.
Context {F : Type} `{Arith F}.
Local Open Scope string_scope.

(** X5: in every arithmetic, a feature vector that [extract] returns has
    exactly the five keys below, in this order; the call leaves the
    configuration of the extractor (smoothing window, blink threshold,
    blink window, capacity of the four rolling windows) as it was, and
    stores the nose height of the frame as the previous one. *)
Theorem extract_shape_and_state (self self' : FeatureExtractor F)
    (frame : LandmarkFrame F) (features : dict F) :
  extract self frame = Ok (features, self') ->
  map fst features
  = ["eyebrow_raise"; "lip_tension"; "head_nod_intensity"; "symmetry_delta";
     "blink_rate"] /\
  smoothing_window self' = smoothing_window self /\
  blink_threshold self' = blink_threshold self /\
  window_seconds (blink_events self') = window_seconds (blink_events self) /\
  maxlen (eyebrow (metrics_history self'))
  = maxlen (eyebrow (metrics_history self)) /\
  maxlen (lip_tension (metrics_history self'))
  = maxlen (lip_tension (metrics_history self)) /\
  maxlen (nod (metrics_history self')) = maxlen (nod (metrics_history self)) /\
  maxlen (symmetry (metrics_history self'))
  = maxlen (symmetry (metrics_history self)) /\
  previous_nose_height self' = Some (py (landmarks frame NOSE_TIP)).
Proof.
  unfold extract, _compute_eyebrow_raise. cbn [bind].
  unfold _compute_lip_tension.
  destruct (lip_tension_raw (landmarks frame)) as [tension |];
    cbn [bind]; [| discriminate].
  unfold _compute_head_nod.
  cbn [previous_nose_height set_history].
  destruct (previous_nose_height self) as [previous |]; cbn [bind].
  - unfold _compute_symmetry.
    match goal with
    | |- context [truediv ?a ?b] => destruct (truediv a b) as [sym |]
    end; cbn [bind]; [| discriminate].
    unfold _compute_blink_rate.
    match goal with
    | |- context [eye_ratio ?s ?f] => destruct (eye_ratio s f) as [ratio |]
    end; cbn [bind]; [| discriminate].
    unfold blink_rate_of_ratio.
    match goal with
    | |- context [truediv ?a ?b] => destruct (truediv a b) as [rate |]
    end; cbn [bind]; [| discriminate].
    intros Heq. injection Heq as <- <-. cbn.
    repeat split; try reflexivity.
    destruct (fltb ratio (blink_threshold self) && negb (previous_blink_state self));
      reflexivity.
  - unfold _compute_symmetry.
    match goal with
    | |- context [truediv ?a ?b] => destruct (truediv a b) as [sym |]
    end; cbn [bind]; [| discriminate].
    unfold _compute_blink_rate.
    match goal with
    | |- context [eye_ratio ?s ?f] => destruct (eye_ratio s f) as [ratio |]
    end; cbn [bind]; [| discriminate].
    unfold blink_rate_of_ratio.
    match goal with
    | |- context [truediv ?a ?b] => destruct (truediv a b) as [rate |]
    end; cbn [bind]; [| discriminate].
    intros Heq. injection Heq as <- <-. cbn.
    repeat split; try reflexivity.
    destruct (fltb ratio (blink_threshold self) && negb (previous_blink_state self));
      reflexivity.
Qed.
End ExtractGeneric.

Lemma extract_shape_and_state_witness :
  exists (features : dict float) (self' : FeatureExtractor float),
    extract
      {| smoothing_window := 5; blink_threshold := lit 0.23;
         previous_blink_state := false;
         metrics_history :=
           let empty := {| maxlen := 5; items := [] |} in
           {| eyebrow := empty; lip_tension := empty;
              nod := empty; symmetry := empty |};
         blink_events := {| window_seconds := lit 60.0; timestamps := [] |};
         previous_nose_height := None |}
      {| landmarks := eyes (lit 0.30); timestamp := lit 10 |}
    = Ok (features, self') /\
    map fst features
    = ["eyebrow_raise"; "lip_tension"; "head_nod_intensity"; "symmetry_delta";
       "blink_rate"]%string.
Proof.
  match goal with
  | |- exists features self', extract ?e ?f = _ /\ _ =>
      destruct (b64_extract_ok e f) as [features [self' Hextract]]
  end.
  exists features, self'. split; [exact Hextract |].
  exact (proj1 (extract_shape_and_state _ _ _ _ Hextract)).
Defined.

Section Pipeline.
Local Open Scope string_scope.

(** X6: one frame through [extract] and then [predict] with the default
    estimator, as the main loop does.  In binary64 the pair never raises,
    whatever the extractor and the landmarks; over the reals, from windows
    of positive capacity, the stress score lies within [[0, 1.5]]. *)
Theorem analyze_returns :
  (forall (extractor : FeatureExtractor float) (frame : LandmarkFrame float),
      exists features stress_score extractor',
        analyze extractor StressEstimator_init frame
        = Ok (features, stress_score, extractor'))
  /\
  (forall (extractor : FeatureExtractor R) (frame : LandmarkFrame R),
      windows_ok extractor ->
      exists features stress_score extractor',
        analyze extractor StressEstimator_init frame
        = Ok (features, stress_score, extractor') /\
        (0 <= score stress_score <= 1.5)%R /\
        windows_ok extractor').
Proof.
  split.
  - intros extractor frame. unfold analyze.
    destruct (b64_extract_ok extractor frame) as [features [e' ->]].
    cbn [bind].
    destruct (predict_loop_total StressEstimator_init features
                b64_scalers_nonzero (lit 0.0)) as [s Hs].
    destruct (predict_of_sum features s Hs) as [r [-> _]].
    cbn [bind]. eauto.
  - intros extractor frame Hok. unfold analyze.
    destruct (real_extract extractor frame Hok)
      as [v1 [v2 [v3 [v4 [v5 [e' [-> [_ [_ [_ [_ [_ Hok']]]]]]]]]]]].
    cbn [bind].
    match goal with
    | |- context [predict StressEstimator_init ?fs] =>
        destruct (predict_loop_total StressEstimator_init fs
                    real_scalers_nonzero (lit 0.0)) as [s Hs];
        destruct (predict_of_sum fs s Hs) as [r [-> [Hscore _]]]
    end.
    cbn [bind]. do 3 eexists. split; [reflexivity |]. split; [| exact Hok'].
    rewrite Hscore.
    pose proof (real_np_clip_bounds s (lit 0.0) (lit 1.5)) as Hb.
    real_lits. lra.
Qed.

Lemma analyze_returns_witness :
  exists (e0 : FeatureExtractor R) features stress_score extractor',
    FeatureExtractor_init 5 (23 / 100)%R 60%R = Ok e0 /\
    analyze e0 StressEstimator_init {| landmarks := origin; timestamp := 0%R |}
    = Ok (features, stress_score, extractor') /\
    (0 <= score stress_score <= 1.5)%R.
Proof.
  destruct (real_init_windows_ok 5 (23 / 100)%R 60%R ltac:(lia)) as [e0 [He0 Hok]].
  destruct (proj2 analyze_returns e0
              {| landmarks := origin; timestamp := 0%R |} Hok)
    as [features [r [e' [Hcall [Hscore _]]]]].
  exists e0, features, r, e'. auto.
Defined.
End Pipeline.

Section EmptyWindows.
Local Open Scope string_scope.

Lemma Prim2SF_nan_is_nan (x : float) :
  Prim2SF x = S754_nan -> PrimFloat.is_nan x = true.
Proof. intros Hx. unfold PrimFloat.is_nan. rewrite eqb_spec, Hx. reflexivity. Qed.

Lemma nan_add_l (x y : float) :
  PrimFloat.is_nan x = true -> PrimFloat.is_nan (PrimFloat.add x y) = true.
Proof.
  intros Hx. apply Prim2SF_nan_is_nan.
  rewrite add_spec, (is_nan_Prim2SF x Hx). reflexivity.
Qed.

Lemma predict_loop_cons (self : StressEstimator float) (key : string)
    (value : float) (rest : dict float) (acc : float) :
  predict_loop self ((key, value) :: rest) acc
  = bind (truediv value (dict_get (scalers self) key (lit 1.0)))
      (fun q =>
         predict_loop self rest
           (fadd acc (fmul (dict_get (weights self) key (lit 0.0))
                           (py_min q (lit 1.5))))).
Proof. reflexivity. Qed.

(** Once the running sum is NaN it stays NaN. *)
Lemma b64_loop_nan (items : dict float) :
  forall acc : float,
    PrimFloat.is_nan acc = true ->
    exists s,
      predict_loop StressEstimator_init items acc = Ok s /\
      PrimFloat.is_nan s = true.
Proof.
  induction items as [| [key value] rest IH]; intros acc Hacc;
    cbn [predict_loop].
  - eauto.
  - rewrite truediv_ok by (apply scale_nonzero, b64_scalers_nonzero).
    cbn [bind]. apply IH. cbn [fadd binary64]. now apply nan_add_l.
Qed.

Lemma no_window_append (d : deque float) (x : float) :
  no_window d -> no_window (deque_append d x).
Proof.
  intros [Hmax Hitems]. unfold no_window, deque_append. cbn [maxlen items].
  rewrite Hmax, Hitems. auto.
Qed.

Lemma no_window_mean (d : deque float) (x : float) :
  no_window d -> np_mean (items (deque_append d x)) = nan.
Proof.
  intros Hd. destruct (no_window_append d x Hd) as [_ ->].
  vm_compute. reflexivity.
Qed.

(** X7: in binary64, an extractor built with [smoothing_window = 0] keeps
    its four windows empty; on every frame it reports NaN for the eyebrow
    raise, the lip tension and the symmetry delta, and the default
    estimator turns that feature vector into a NaN score of level
    "high". *)
Theorem empty_windows_give_nan_high :
  (forall blink_threshold blink_window_seconds : float,
      exists e0,
        FeatureExtractor_init 0 blink_threshold blink_window_seconds = Ok e0 /\
        no_windows e0)
  /\
  (forall (extractor : FeatureExtractor float) (frame : LandmarkFrame float),
      no_windows extractor ->
      exists features stress_score extractor',
        analyze extractor StressEstimator_init frame
        = Ok (features, stress_score, extractor') /\
        dict_getitem features "eyebrow_raise" = Ok nan /\
        dict_getitem features "lip_tension" = Ok nan /\
        dict_getitem features "symmetry_delta" = Ok nan /\
        PrimFloat.is_nan (score stress_score) = true /\
        level stress_score = "high" /\
        no_windows extractor').
Proof.
  split.
  - intros thr w. eexists. split; [reflexivity |].
    unfold no_windows, no_window. cbn. auto 10.
  - intros extractor frame [He [Hl [Hn Hs]]].
    unfold analyze, extract, _compute_eyebrow_raise. cbn [bind].
    rewrite (no_window_mean _ _ He).
    unfold _compute_lip_tension.
    destruct (b64_lip_tension_raw_ok (landmarks frame)) as [tension ->].
    cbn [bind]. cbn [metrics_history set_history lip_tension].
    rewrite (no_window_mean _ _ Hl).
    match goal with
    | |- context [_compute_head_nod ?s frame] =>
        assert (Hnod : exists v s',
                   _compute_head_nod s frame = Ok (v, s') /\
                   no_window (eyebrow (metrics_history s')) /\
                   no_window (lip_tension (metrics_history s')) /\
                   no_window (nod (metrics_history s')) /\
                   no_window (symmetry (metrics_history s')))
    end.
    { unfold _compute_head_nod. cbn [previous_nose_height set_history].
      destruct (previous_nose_height extractor);
        do 2 eexists; (split; [reflexivity |]); cbn;
        auto using no_window_append. }
    destruct Hnod as [v3 [s3 [-> [He3 [Hl3 [Hn3 Hs3]]]]]]. cbn [bind].
    unfold _compute_symmetry.
    rewrite b64_truediv_py_max by exact b64_eps_pos. cbn [bind].
    rewrite (no_window_mean _ _ Hs3).
    match goal with
    | |- context [_compute_blink_rate ?s frame] =>
        destruct (b64_compute_blink_rate_ok s frame) as [v5 [s5 Hblink]];
        assert (Hhist : metrics_history s5 = metrics_history s)
    end.
    { revert Hblink. unfold _compute_blink_rate.
      match goal with
      | |- context [eye_ratio ?s ?f] => destruct (eye_ratio s f) as [ratio |]
      end; cbn [bind]; [| discriminate].
      unfold blink_rate_of_ratio.
      match goal with
      | |- context [truediv ?a ?b] => destruct (truediv a b) as [rate |]
      end; cbn [bind]; [| discriminate].
      intros Heq. injection Heq as _ <-. reflexivity. }
    rewrite Hblink. cbn [bind].
    match goal with
    | |- context [predict StressEstimator_init ?fs] =>
        assert (Hsum : exists s,
                   predict_loop StressEstimator_init fs (lit 0.0) = Ok s /\
                   PrimFloat.is_nan s = true)
    end.
    { rewrite predict_loop_cons.
      rewrite truediv_ok by (apply scale_nonzero, b64_scalers_nonzero).
      cbn [bind]. apply b64_loop_nan. vm_compute. reflexivity. }
    destruct Hsum as [s [Hs' Hnan]].
    destruct (predict_of_sum _ s Hs') as [r [-> [Hscore Hlevel]]].
    cbn [bind]. do 3 eexists. split; [reflexivity |].
    assert (Hr : PrimFloat.is_nan (score r) = true).
    { rewrite Hscore.
      assert (Hle : PrimFloat.leb (lit 0.0) (lit 1.5) = true)
        by (vm_compute; reflexivity).
      pose proof (b64_clip s (lit 0.0) (lit 1.5) Hle) as Hclip.
      rewrite Hnan in Hclip. exact Hclip. }
    split; [reflexivity |]. split; [reflexivity |]. split; [reflexivity |].
    split; [exact Hr |]. split.
    + rewrite Hlevel. unfold level_of. cbn [fltb binary64].
      rewrite !(nan_ltb_l _ _ Hr). reflexivity.
    + unfold no_windows. rewrite Hhist. cbn.
      auto using no_window_append.
Qed.

Lemma empty_windows_give_nan_high_witness :
  exists (e0 : FeatureExtractor float) features stress_score extractor',
    FeatureExtractor_init 0 (lit 0.23) (lit 60.0) = Ok e0 /\
    analyze e0 StressEstimator_init
      {| landmarks := eyes (lit 0.30); timestamp := lit 10 |}
    = Ok (features, stress_score, extractor') /\
    level stress_score = "high".
Proof.
  destruct empty_windows_give_nan_high as [Hinit Hframe].
  destruct (Hinit (lit 0.23) (lit 60.0)) as [e0 [He0 Hno]].
  destruct (Hframe e0 {| landmarks := eyes (lit 0.30); timestamp := lit 10 |}
              Hno)
    as [features [r [e' [Hcall [_ [_ [_ [_ [Hlevel _]]]]]]]]].
  exists e0, features, r, e'. auto.
Defined.
End EmptyWindows.

Section PredictReal.
Local Open Scope string_scope.
Local Open Scope R_scope.

Lemma dict_get_absent {V : Type} (d : dict V) (key : string) (default : V) :
  ~ In key (map fst d) -> dict_get d key default = default.
Proof.
  induction d as [| [k v] d IH]; cbn [dict_get map fst In]; intros Hnot.
  - reflexivity.
  - destruct (String.eqb_spec k key) as [-> | _].
    + exfalso. apply Hnot. now left.
    + apply IH. intros Hin. apply Hnot. now right.
Qed.

Lemma real_predict_loop_cons (key : string) (value : R) (rest : dict R) (acc : R) :
  predict_loop StressEstimator_init ((key, value) :: rest) acc
  = predict_loop StressEstimator_init rest
      (acc + dict_get (weights StressEstimator_init) key (lit 0.0)
             * py_min (value / dict_get (scalers StressEstimator_init) key (lit 1.0))
                 (lit 1.5)).
Proof.
  cbn [predict_loop]. rewrite real_truediv_scale. reflexivity.
Qed.

Lemma predict_of_loop (features features' : dict R) :
  predict_loop StressEstimator_init features (lit 0.0)
  = predict_loop StressEstimator_init features' (lit 0.0) ->
  predict StressEstimator_init features = predict StressEstimator_init features'.
Proof. intros Hloop. unfold predict. rewrite Hloop. reflexivity. Qed.

(** X8: over the reals, a feature whose name the estimator has no weight
    for is ignored: with or without it, whatever its value and wherever it
    stands, [predict] returns the same result. *)
Theorem predict_ignores_unknown_key (before after : dict R) (key : string)
    (value : R) :
  ~ In key (map fst (weights (F := R) StressEstimator_init)) ->
  predict StressEstimator_init (before ++ (key, value) :: after)%list
  = predict StressEstimator_init (before ++ after)%list.
Proof.
  intros Hunknown. apply predict_of_loop. generalize (lit (F := R) 0.0).
  induction before as [| [k x] before IH]; intros acc; cbn [app].
  - rewrite real_predict_loop_cons.
    rewrite (dict_get_absent _ key _ Hunknown). f_equal.
    real_lits. lra.
  - rewrite !real_predict_loop_cons. apply IH.
Qed.

Lemma predict_ignores_unknown_key_witness :
  predict (F := R) StressEstimator_init
    [("lip_tension", 1 / 2); ("pupil_size", 7)]
  = predict StressEstimator_init [("lip_tension", 1 / 2)].
Proof.
  apply (predict_ignores_unknown_key [("lip_tension", 1 / 2)] [] "pupil_size" 7).
  cbn. intros [Hk | [Hk | [Hk | [Hk | [Hk | []]]]]]; discriminate.
Defined.


End PredictReal.

Section ExtractorReal.
Local Open Scope R_scope.

(** X10: over the reals the symmetry delta never exceeds 2: from a window
    of positive capacity whose items lie within [[0, 2]],
    [_compute_symmetry] returns a value within [[0, 2]] and leaves such a
    window. *)
Theorem symmetry_at_most_two (self : FeatureExtractor R) (landmarks : ndarray R) :
  maxlen (symmetry (metrics_history self)) <> 0%nat ->
  Forall (fun x => 0 <= x <= 2) (items (symmetry (metrics_history self))) ->
  exists v self',
    _compute_symmetry self landmarks = Ok (v, self') /\
    0 <= v <= 2 /\
    maxlen (symmetry (metrics_history self')) <> 0%nat /\
    Forall (fun x => 0 <= x <= 2) (items (symmetry (metrics_history self'))).
Proof.
  intros Hmax Hitems. unfold _compute_symmetry.
  rewrite real_truediv_py_max by (rewrite real_lit_eps; lra).
  cbn [bind]. do 2 eexists. split; [reflexivity |].
  match goal with
  | |- context [deque_append (symmetry _) ?x] =>
      set (symmetry_score := x); assert (Hs : 0 <= symmetry_score <= 2)
  end.
  { unfold symmetry_score. cbn [fdiv fabs fadd fsub fmul real].
    set (l := _distance (landmarks LEFT_CHEEK) (landmarks NOSE_TIP)).
    set (r := _distance (landmarks RIGHT_CHEEK) (landmarks NOSE_TIP)).
    assert (Hl : 0 <= l) by apply real_distance_nonneg.
    assert (Hr : 0 <= r) by apply real_distance_nonneg.
    replace (lit (F := R) 0.5) with (1 / 2) by (real_lits; lra).
    rewrite real_py_max, real_lit_eps.
    set (m := Rmax ((l + r) * (1 / 2)) (1 / 100000)).
    assert (Hm1 : (l + r) * (1 / 2) <= m) by apply Rmax_l.
    assert (Hm2 : 1 / 100000 <= m) by apply Rmax_r.
    assert (Habs : 0 <= Rabs (l - r) <= l + r).
    { split; [apply Rabs_pos |]. unfold Rabs. destruct (Rcase_abs (l - r)); lra. }
    assert (Hinv : 0 < / m) by (apply Rinv_0_lt_compat; lra).
    unfold Rdiv. split; [nra |].
    apply Rmult_le_reg_r with m; [lra |].
    rewrite Rmult_assoc, Rinv_l by lra. lra. }
  assert (Hall : Forall (fun x => 0 <= x <= 2)
            (items (deque_append (symmetry (metrics_history self)) symmetry_score)))
    by (apply deque_append_items; assumption).
  cbn [metrics_history set_history symmetry].
  split; [| split; [exact Hmax | exact Hall]].
  apply real_np_mean_bounds; [| exact Hall].
  apply deque_append_nonempty. exact Hmax.
Qed.

Lemma symmetry_at_most_two_witness :
  exists (v : R) (self' : FeatureExtractor R),
    _compute_symmetry
      {| smoothing_window := 5; blink_threshold := 23 / 100;
         previous_blink_state := false;
         metrics_history :=
           let empty := {| maxlen := 5; items := [] |} in
           {| eyebrow := empty; lip_tension := empty;
              nod := empty; symmetry := empty |};
         blink_events := {| window_seconds := 60; timestamps := [] |};
         previous_nose_height := None |}
      origin = Ok (v, self') /\
    0 <= v <= 2.
Proof.
  match goal with
  | |- exists v self', _compute_symmetry ?e ?l = _ /\ _ =>
      destruct (symmetry_at_most_two e l) as [v [self' [Hcall [Hv _]]]]
  end.
  - cbn. lia.
  - cbn. constructor.
  - exists v, self'. auto.
Defined.




End ExtractorReal.

Section WindowEdgesReal.
Local Open Scope R_scope.

(** X13: over the reals, after the adds of a non-decreasing sequence to an
    empty counter: with a window [W >= 0] the newest event is always
    stored, so the count is at least 1; with a negative window nothing is
    stored, the newest event is evicted with the rest and the count is
    0. *)
Theorem newest_event_and_negative_window (W : R) (ts : list R) (latest : R) :
  StronglySorted Rle (ts ++ [latest]) ->
  let m := add_all (empty_metric W) (ts ++ [latest]) in
  (0 <= W -> In latest (timestamps m) /\ (1 <= count m)%nat) /\
  (W < 0 -> timestamps m = [] /\ count m = 0%nat).
Proof.
  intros Hs m.
  assert (Hm : timestamps m = filter (in_window W latest) (ts ++ [latest]))
    by (apply real_add_all_filter; exact Hs).
  destruct (sorted_app_inv _ _ Hs) as [_ [_ Hle]].
  split; intros HW.
  - assert (Hin : In latest (timestamps m)).
    { rewrite Hm. apply filter_In. split.
      - apply in_or_app. right. now left.
      - apply in_window_true. lra. }
    split; [exact Hin |]. unfold count.
    destruct (timestamps m); [contradiction | cbn; lia].
  - assert (Hnil : timestamps m = []).
    { rewrite Hm.
      assert (Hnone : forall l, (forall t, In t l -> t <= latest) ->
                                filter (in_window W latest) l = []).
      { induction l as [| t l IH]; intros Hall; cbn [filter]; [reflexivity |].
        assert (Ht : t <= latest) by (apply Hall; now left).
        destruct (in_window W latest t) eqn:Hw.
        - apply in_window_true in Hw. lra.
        - apply IH. intros x Hx. apply Hall. now right. }
      apply Hnone. intros t Ht. apply in_app_or in Ht as [Ht | [<- | []]].
      - apply Hle; [exact Ht | now left].
      - lra. }
    unfold count. rewrite Hnil. auto.
Qed.

Lemma newest_event_and_negative_window_witness :
  timestamps (add_all (empty_metric (-1)) ([0; 30] ++ [70])) = [].
Proof.
  destruct (newest_event_and_negative_window (-1) [0; 30] 70) as [_ Hneg].
  - cbn [app]. repeat constructor; lra.
  - apply Hneg. lra.
Defined.

Lemma real_distance_self (a : point R) : _distance a a = 0.
Proof.
  unfold _distance, norm, point_map2. cbn [px py pz fst snd fsqrt fadd fmul fsub real].
  replace ((px a - px a) * (px a - px a) + (py a - py a) * (py a - py a)
           + (pz a - pz a) * (pz a - pz a)) with 0 by ring.
  apply sqrt_0.
Qed.


End WindowEdgesReal.

Section UpperClipReal.
Local Open Scope string_scope.
Local Open Scope R_scope.

Lemma real_lit_0' : lit (F := R) 0.0 = 0.
Proof. real_lits. lra. Qed.

Lemma real_loop_sum (items : dict R) :
  forall acc : R,
    predict_loop StressEstimator_init items acc
    = Ok (acc + Rsum (map term_of items)).
Proof.
  induction items as [| [key value] rest IH]; intros acc.
  - cbn. f_equal. lra.
  - rewrite real_predict_loop_cons, IH. f_equal.
    unfold term_of, weight_of, Rsum. cbn [map fold_right fst snd]. ring.
Qed.

Lemma term_of_le (item : string * R) :
  term_of item <= 15 / 10 * weight_of (fst item).
Proof.
  unfold term_of. pose proof (real_weights_nonneg (fst item)) as Hw.
  fold (weight_of (fst item)) in Hw.
  rewrite real_py_min.
  match goal with
  | |- _ * Rmin ?a ?b <= _ => pose proof (Rmin_r a b) as Hmin
  end.
  replace (lit (F := R) 1.5) with (15 / 10) in * by (real_lits; lra).
  nra.
Qed.

Lemma dict_get_cons {V : Type} (n : string) (w : V) (d : dict V)
    (key : string) (default : V) :
  dict_get ((n, w) :: d) key default
  = if String.eqb n key then w else dict_get d key default.
Proof. reflexivity. Qed.

(** Over distinct keys, the weights looked up in a dict of non-negative
    values add up to at most the sum of its values. *)
Lemma lookups_le_total (d : dict R) :
  Forall (fun kv => 0 <= snd kv) d ->
  forall keys : list string,
    NoDup keys ->
    Rsum (map (fun k => dict_get d k (lit 0.0)) keys) <= Rsum (map snd d).
Proof.
  unfold Rsum.
  induction 1 as [| [n w] d Hw Hd IH]; intros keys Hnodup.
  - cbn [map fold_right].
    induction keys as [| k keys IHk]; cbn [map fold_right]; [lra |].
    apply NoDup_cons_iff in Hnodup as [_ Hnodup]. specialize (IHk Hnodup).
    change (dict_get (@nil (string * R)) k (lit 0.0)) with (lit (F := R) 0.0).
    pose proof real_lit_0' as Hzero. set (z := lit (F := R) 0.0) in *. lra.
  - cbn [snd] in Hw. specialize (IH keys Hnodup).
    cbn [map fold_right snd].
    assert (Hg : forall k, 0 <= dict_get d k (lit 0.0)).
    { intros k. apply (dict_get_ind (fun v : R => 0 <= v));
        [rewrite real_lit_0'; lra | exact Hd]. }
    assert (Hstep :
              fold_right Rplus 0
                (map (fun k => dict_get ((n, w) :: d) k (lit 0.0)) keys)
              <= w + fold_right Rplus 0
                       (map (fun k => dict_get d k (lit 0.0)) keys)).
    { clear IH. induction keys as [| k keys IHk]; cbn [map fold_right].
      - lra.
      - apply NoDup_cons_iff in Hnodup as [Hnotin Hnodup].
        rewrite dict_get_cons. destruct (String.eqb_spec n k) as [-> | Hne].
        + assert (Hsame : map (fun k0 => dict_get ((k, w) :: d) k0 (lit 0.0)) keys
                          = map (fun k0 => dict_get d k0 (lit 0.0)) keys).
          { apply map_ext_in. intros k0 Hk0. rewrite dict_get_cons.
            destruct (String.eqb_spec k k0) as [-> | _];
              [contradiction | reflexivity]. }
          rewrite Hsame. specialize (Hg k). lra.
        + specialize (IHk Hnodup). lra. }
    lra.
Qed.

(** X15: over the reals, for a feature vector with distinct keys, as a dict
    has, the weighted sum never exceeds 1.5: the upper bound of the clip is
    never reached from above, and the score is the weighted sum, or 0 when
    that is negative. *)
Theorem distinct_keys_never_exceed_cap (features : dict R) :
  NoDup (map fst features) ->
  exists (s : R) (r : StressScore R),
    predict_loop StressEstimator_init features (lit 0.0) = Ok s /\
    predict StressEstimator_init features = Ok r /\
    s <= 1.5 /\
    score r = Rmax 0 s.
Proof.
  intros Hnodup.
  set (s := lit (F := R) 0.0 + Rsum (map term_of features)).
  assert (Hs : predict_loop StressEstimator_init features (lit 0.0) = Ok s)
    by apply real_loop_sum.
  destruct (predict_of_sum features s Hs) as [r [Hr [Hscore _]]].
  exists s, r. split; [exact Hs |]. split; [exact Hr |].
  assert (Hterms : Rsum (map term_of features)
                   <= 15 / 10 * Rsum (map weight_of (map fst features))).
  { clear. unfold Rsum.
    induction features as [| item rest IH]; cbn [map fold_right].
    - lra.
    - pose proof (term_of_le item). lra. }
  assert (Hweights : Rsum (map weight_of (map fst features)) <= 1).
  { pose proof (lookups_le_total (weights StressEstimator_init)) as Htotal.
    assert (Hnonneg : Forall (fun kv : string * R => 0 <= snd kv)
                        (weights StressEstimator_init)).
    { repeat constructor; cbn [snd]; real_lits; lra. }
    specialize (Htotal Hnonneg (map fst features) Hnodup).
    assert (Hone : Rsum (map snd (weights (F := R) StressEstimator_init)) = 1).
    { unfold Rsum. cbn [weights StressEstimator_init map snd fold_right].
      real_lits. lra. }
    rewrite Hone in Htotal. exact Htotal. }
  assert (Hcap : s <= 1.5).
  { unfold s. real_lits. lra. }
  split; [exact Hcap |].
  rewrite Hscore, real_np_clip by (real_lits; lra).
  replace (lit (F := R) 0.0) with 0 by (real_lits; lra).
  replace (lit (F := R) 1.5) with 1.5 by (real_lits; lra).
  rewrite (Rmin_left s 1.5) by exact Hcap. reflexivity.
Qed.

Lemma distinct_keys_never_exceed_cap_witness :
  exists (s : R) (r : StressScore R),
    predict_loop StressEstimator_init
      [("eyebrow_raise", 1); ("lip_tension", 9)] (lit 0.0) = Ok s /\
    predict StressEstimator_init
      [("eyebrow_raise", 1); ("lip_tension", 9)] = Ok r /\
    s <= 1.5 /\
    score r = Rmax 0 s.
Proof.
  apply distinct_keys_never_exceed_cap. cbn [map fst].
  repeat constructor; cbn [In]; intros Hin;
    repeat (destruct Hin as [Hin | Hin]; try discriminate); exact Hin.
Defined.
End UpperClipReal.

Section NanBinary64.
Local Open Scope string_scope.

Lemma nan_sub_r (x y : float) :
  PrimFloat.is_nan y = true -> PrimFloat.is_nan (PrimFloat.sub x y) = true.
Proof.
  intros Hy. apply Prim2SF_nan_is_nan.
  rewrite sub_spec, (is_nan_Prim2SF y Hy).
  unfold SF64sub, SFsub. destruct (Prim2SF x); reflexivity.
Qed.

(** X16: in binary64 a frame whose average eye ratio is NaN is read as an
    open eye: it records no blink event and leaves the blink state
    open. *)
Theorem nan_ratio_is_open_eye (self : FeatureExtractor float) (ratio t : float) :
  PrimFloat.is_nan ratio = true ->
  exists rate self',
    blink_rate_of_ratio self ratio t = Ok (rate, self') /\
    blink_events self' = blink_events self /\
    previous_blink_state self' = false.
Proof.
  intros Hnan.
  destruct (b64_blink_rate_of_ratio_ok self ratio t) as [rate [self' Hcall]].
  exists rate, self'. split; [exact Hcall |].
  destruct (blink_rate_of_ratio_state _ _ _ _ _ Hcall) as [_ [Hprev Hev]].
  cbn [fltb binary64] in Hprev, Hev.
  rewrite (nan_ltb_l ratio _ Hnan) in Hprev, Hev. cbn [andb] in Hev. auto.
Qed.

Lemma nan_ratio_is_open_eye_witness :
  exists (rate : float) (self' : FeatureExtractor float),
    blink_rate_of_ratio
      {| smoothing_window := 5; blink_threshold := lit 0.23;
         previous_blink_state := true;
         metrics_history :=
           let empty := {| maxlen := 5; items := [] |} in
           {| eyebrow := empty; lip_tension := empty;
              nod := empty; symmetry := empty |};
         blink_events := {| window_seconds := lit 60.0; timestamps := [lit 3] |};
         previous_nose_height := None |}
      nan (lit 10) = Ok (rate, self') /\
    timestamps (blink_events self') = [lit 3] /\
    previous_blink_state self' = false.
Proof.
  match goal with
  | |- exists rate self', blink_rate_of_ratio ?e ?r ?t = _ /\ _ =>
      destruct (nan_ratio_is_open_eye e r t) as [rate [self' [Hcall [Hev Hprev]]]]
  end.
  - reflexivity.
  - exists rate, self'. split; [exact Hcall |]. rewrite Hev. auto.
Defined.

(** X17: in binary64, once a NaN timestamp stands at the head of the
    counter no event is evicted any more: every later add only appends,
    whatever the window and the timestamps. *)
Theorem nan_head_blocks_eviction (window head : float) (rest later : list float) :
  PrimFloat.is_nan head = true ->
  add_all {| window_seconds := window; timestamps := head :: rest |} later
  = {| window_seconds := window; timestamps := head :: rest ++ later |}.
Proof.
  intros Hnan. revert rest.
  induction later as [| t later IH]; intros rest.
  - cbn [add_all fold_left]. rewrite app_nil_r. reflexivity.
  - unfold add_all. cbn [fold_left]. fold (add_all (F := float)).
    assert (Hadd : add {| window_seconds := window; timestamps := head :: rest |} t
                   = {| window_seconds := window;
                        timestamps := head :: (rest ++ [t]) |}).
    { unfold add. cbn [window_seconds timestamps app popleft_while].
      cbn [fltb fsub binary64].
      rewrite (nan_ltb_r window _ (nan_sub_r t head Hnan)). reflexivity. }
    rewrite Hadd.
    change (fold_left add later ?m) with (add_all m later).
    rewrite IH, <- app_assoc. reflexivity.
Qed.

Lemma nan_head_blocks_eviction_witness :
  count (add_all {| window_seconds := lit 60.0; timestamps := [nan] |}
           [lit 100; lit 1000; lit 10000]) = 4%nat.
Proof.
  rewrite (nan_head_blocks_eviction (lit 60.0) nan []
             [lit 100; lit 1000; lit 10000]).
  - reflexivity.
  - reflexivity.
Defined.

(** X18: in binary64 a NaN score is always given the level "high":
    whatever the features, [predict] with the default configuration never
    reports a NaN score as "calm" or "mild". *)
Theorem nan_score_is_high (features : dict float) (r : StressScore float) :
  predict StressEstimator_init features = Ok r ->
  PrimFloat.is_nan (score r) = true ->
  level r = "high".
Proof.
  intros Hr Hnan.
  destruct (predict_loop_total StressEstimator_init features
              b64_scalers_nonzero (lit 0.0)) as [s Hs].
  destruct (predict_of_sum features s Hs) as [r0 [Hr0 [_ Hlevel]]].
  rewrite Hr in Hr0. injection Hr0 as <-.
  rewrite Hlevel. unfold level_of. cbn [fltb binary64].
  rewrite !(nan_ltb_l _ _ Hnan). reflexivity.
Qed.

Lemma nan_score_is_high_witness :
  level {| score := nan; label := "High Stress / Possible Deception Indicators";
           icon := "🔴"; level := "high" |} = "high".
Proof.
  apply (nan_score_is_high [("blink_rate", nan)]).
  - vm_compute. reflexivity.
  - reflexivity.
Defined.
End NanBinary64.

Section LipCalibrationReal.
Local Open Scope R_scope.

(** X19: over the reals, with [ratio = width / max(height, 1e-5)], the raw
    lip tension is 0 up to a ratio of 5, 1 from a ratio of 60 on, and
    [(ratio - 5) / 55] in between: "ratio 5 -> 0, ratio 60 -> 1". *)
Theorem lip_tension_calibration (landmarks : ndarray R) :
  let mouth_width :=
    _distance (landmarks LEFT_LIP_CORNER) (landmarks RIGHT_LIP_CORNER) in
  let mouth_height := _distance (landmarks TOP_LIP) (landmarks BOTTOM_LIP) in
  let ratio := mouth_width / Rmax mouth_height (1 / 100000) in
  exists tension,
    lip_tension_raw landmarks = Ok tension /\
    (ratio <= 5 -> tension = 0) /\
    (60 <= ratio -> tension = 1) /\
    (5 <= ratio <= 60 -> tension = (ratio - 5) / 55).
Proof.
  intros w h ratio. unfold lip_tension_raw.
  rewrite real_truediv_py_max by (rewrite real_lit_eps; lra).
  cbn [bind]. eexists. split; [reflexivity |].
  fold w h. rewrite real_py_max, real_lit_eps. cbn [fdiv fsub real].
  fold ratio.
  replace (lit (F := R) 5.0) with 5 by (real_lits; lra).
  replace (lit (F := R) 55.0) with 55 by (real_lits; lra).
  replace (lit (F := R) 0.0) with 0 by (real_lits; lra).
  replace (lit (F := R) 1.0) with 1 by (real_lits; lra).
  rewrite real_np_clip by lra.
  repeat split; intros Hcase;
    apply Rmax_case_strong; apply Rmin_case_strong; intros; lra.
Qed.

Lemma lip_tension_calibration_witness :
  exists tension : R,
    lip_tension_raw origin = Ok tension /\ tension = 0.
Proof.
  destruct (lip_tension_calibration origin) as [tension [Hraw [Hlow _]]].
  exists tension. split; [exact Hraw |]. apply Hlow.
  rewrite real_distance_self.
  assert (Hm : 0 < Rmax (_distance (origin TOP_LIP) (origin BOTTOM_LIP)) (1 / 100000)).
  { apply Rlt_le_trans with (1 / 100000); [lra | apply Rmax_r]. }
  unfold Rdiv. rewrite Rmult_0_l. lra.
Defined.
End LipCalibrationReal.
